(** * Yuyo: reaction handlers, the reaction paginator, the component
    context and the two dispatch registries

    A shallow embedding of [yuyo/reactions.py] and [yuyo/components.py].

    Every Python object is a record of its slots.  A method is a function
    in a state-and-exception monad: it receives the object it is called on
    together with the outside world ([Env]: the clock, the chat platform,
    the tasks handed to the event loop) and gives back either a value or
    a raised exception, with the state as the method left it.  As in
    Python, what a method wrote before it raised stays written. *)

From Stdlib Require Import ZArith Lia.
From stdpp Require Import gmap strings list fin_maps.

(** ** Exceptions *)

(** The failures of the platform client, [hikari.errors]. *)
Inductive HikariError : Type :=
| NotFoundError
| ForbiddenError
| RateLimitedError (retry_after : Z)   (* milliseconds *)
| InternalServerError.

(** A key of a Python dict, as [KeyError] reports it. *)
Inductive DictKey : Type :=
| IntKey (i : Z)
| StrKey (s : string).

Inductive PyException : Type :=
| RuntimeError (msg : string)
| ValueError (msg : string)
| LookupError (msg : string)
| TypeError (msg : string)
| KeyError (key : DictKey)
| IndexError
| AssertionError
| AttributeError (name : string)         (* the attribute that has no place *)
| InvalidStateError                      (* asyncio.InvalidStateError *)
| HandlerClosed                          (* reactions.HandlerClosed *)
| Hikari (e : HikariError).

(** ** The monad of methods *)

Inductive Result (A : Type) : Type :=
| Return (value : A)
| Raise (exc : PyException).
Arguments Return {A} value.
Arguments Raise {A} exc.

Definition M (St A : Type) : Type := St -> Result A * St.

Definition ret {St A} (a : A) : M St A := fun st => (Return a, st).

Definition raise {St A} (e : PyException) : M St A := fun st => (Raise e, st).

Definition bind {St A B} (m : M St A) (k : A -> M St B) : M St B :=
  fun st =>
    match m st with
    | (Return a, st') => k a st'
    | (Raise e, st') => (Raise e, st')
    end.

(** [try: m  except Exception as e: handler e]. *)
Definition try_except {St A} (m : M St A) (handler : PyException -> M St A) : M St A :=
  fun st =>
    match m st with
    | (Return a, st') => (Return a, st')
    | (Raise e, st') => handler e st'
    end.

Declare Scope py_scope.
Delimit Scope py_scope with py.
Notation "'let*' x ':=' m 'in' k" := (bind m (fun x => k))
  (at level 10, x name, m at level 100, k at level 200) : py_scope.
Notation "m '>>>' k" := (bind m (fun _ => k))
  (at level 71, right associativity) : py_scope.
Open Scope py_scope.

(** ** Values of the platform *)

(** [hikari.undefined.UndefinedOr]: a field that may be left out. *)
Inductive UndefinedOr (A : Type) : Type :=
| UNDEFINED
| Defined (a : A).
Arguments UNDEFINED {A}.
Arguments Defined {A} a.

(** Python truth value of an [UndefinedOr]: [UNDEFINED] is falsy, and the
    given test decides for a value. *)
Definition truthy {A} (nonempty : A -> bool) (x : UndefinedOr A) : bool :=
  match x with UNDEFINED => false | Defined a => nonempty a end.

Inductive Embed : Type := mkEmbed (description : string).

(** [EntryT]: one page, the message content and the message embed. *)
Definition EntryT : Type := UndefinedOr string * UndefinedOr Embed.

(** The handle of a sent message ([hikari.messages.Message]). *)
Record Message : Type := mkMessage {
  Message_id : Z;
  Message_channel_id : Z;
}.

(** What the platform shows for a message. *)
Record Shown : Type := mkShown {
  content : option string;
  embed : option Embed;
  reactions : list string;
}.

(** A reaction event.  [emoji_id] is set for a custom emoji, [emoji_name]
    for a unicode emoji. *)
Record EventT : Type := mkEvent {
  user_id : Z;
  message_id : Z;
  emoji_id : option Z;
  emoji_name : option string;
}.

(** The keys of a handler's callback table: the id of a custom emoji or
    the string of a unicode emoji. *)
Abbreviation EmojiIdentifier := (Z + string)%type.

(** The five navigation emojis, each followed by VARIATION SELECTOR-16. *)
Definition LEFT_DOUBLE_TRIANGLE : string := "⏮️".
Definition LEFT_TRIANGLE : string := "◀️".
Definition STOP_SQUARE : string := "⏹️".
Definition RIGHT_TRIANGLE : string := "▶️".
Definition RIGHT_DOUBLE_TRIANGLE : string := "⏭️".

(** ** Values of components.py *)

Inductive ComponentBuilder : Type := mkComponent (label : string).

Record ComponentInteraction : Type := mkInteraction {
  interaction_id : Z;
  interaction_message_id : Z;
  custom_id : string;
}.

(** [hikari.ResponseType]. *)
Inductive ResponseType : Type :=
| MESSAGE_CREATE
| DEFERRED_MESSAGE_CREATE
| DEFERRED_MESSAGE_UPDATE
| MESSAGE_UPDATE.

(** [hikari.MessageFlag.NONE] and [hikari.MessageFlag.EPHEMERAL]. *)
Definition MessageFlag_NONE : Z := 0.
Definition MessageFlag_EPHEMERAL : Z := 64.

(** The keyword arguments of [create_initial_response]. *)
Record ResponseArgs : Type := mkArgs {
  arg_content : UndefinedOr string;
  arg_component : UndefinedOr ComponentBuilder;
  arg_components : UndefinedOr (list ComponentBuilder);
  arg_embed : UndefinedOr Embed;
  arg_embeds : UndefinedOr (list Embed);
  arg_mentions_everyone : UndefinedOr bool;
  arg_user_mentions : UndefinedOr (list Z + bool);
  arg_role_mentions : UndefinedOr (list Z + bool);
  arg_flags : UndefinedOr Z;
  arg_tts : UndefinedOr bool;
}.

(** [_ResponseT]: what a synchronous request is answered with. *)
Inductive _ResponseT : Type :=
| InteractionDeferredBuilder (type : ResponseType) (flags : Z)
| InteractionMessageBuilder (type : ResponseType)
    (content : UndefinedOr string)
    (components : UndefinedOr (list ComponentBuilder))
    (embeds : UndefinedOr (list Embed))
    (flags : Z) (is_tts : UndefinedOr bool)
    (mentions_everyone : UndefinedOr bool)
    (user_mentions role_mentions : UndefinedOr (list Z + bool)).

(** An [asyncio.Future]: pending, or resolved once with [set_result]. *)
Inductive Future : Type :=
| Pending
| Resolved (result : _ResponseT).

(** An initial response as the platform receives it over REST. *)
Record InitialResponse : Type := mkInitialResponse {
  response_to : Z;
  response_type : ResponseType;
  response_args : ResponseArgs;
}.

(** The slots of [components.Context] ([_response_lock] apart: one call
    runs at a time here, so the lock is always free when a call starts). *)
Record Context : Type := mkContext {
  _ephemeral_default : bool;
  _has_responded : bool;
  _has_been_deferred : bool;
  _interaction : ComponentInteraction;
  _last_response_id : option Z;
  _response_future : option Future;
}.

(** A component callback is a function of the library's user; it is only
    ever handed to the event loop, so its name stands for it. *)
Inductive ComponentCallback : Type := mkCallback (name : string).

Record ComponentExecutor : Type := mkExecutor {
  _id_to_callback : gmap string ComponentCallback;
}.

Record ComponentClient : Type := mkComponentClient {
  _executors : gmap Z ComponentExecutor;
}.

(** ** The outside world *)

(** What [asyncio.create_task] hands to the event loop.  A task runs only
    after the coroutine that created it has given control back. *)
Inductive Task : Type :=
| close_task                                  (* [self.close()] *)
| _delete_message_task (message : Message)    (* [_delete_message(message)] *)
| execute_task (executor : ComponentExecutor)
    (interaction : ComponentInteraction)      (* [executor.execute(interaction, future=future)] *)
| listener_task (listener : ComponentCallback) (ctx : Context).

Record Env : Type := mkEnv {
  (** [datetime.datetime.now(tz=utc)], in microseconds *)
  now : Z;
  (** the platform's answers to the coming REST requests, in order:
      [None] is success; once the list is used up every request succeeds *)
  rest_script : list (option HikariError);
  (** the id the platform gives to the next message it creates *)
  next_message_id : Z;
  (** what the platform shows, by message id *)
  messages : gmap Z Shown;
  (** the initial responses the platform received *)
  initial_responses : list InitialResponse;
  (** the tasks handed to the event loop, oldest first *)
  tasks : list Task;
  (** ghost: the callbacks [on_reaction_event] has called, oldest first *)
  invoked : list (EmojiIdentifier * EventT);
}.

Definition set_rest_script (s : list (option HikariError)) (env : Env) : Env :=
  mkEnv (now env) s (next_message_id env) (messages env)
        (initial_responses env) (tasks env) (invoked env).

Definition set_messages (ms : gmap Z Shown) (env : Env) : Env :=
  mkEnv (now env) (rest_script env) (next_message_id env) ms
        (initial_responses env) (tasks env) (invoked env).

Definition set_next_message_id (i : Z) (env : Env) : Env :=
  mkEnv (now env) (rest_script env) i (messages env)
        (initial_responses env) (tasks env) (invoked env).

Definition set_initial_responses (rs : list InitialResponse) (env : Env) : Env :=
  mkEnv (now env) (rest_script env) (next_message_id env) (messages env)
        rs (tasks env) (invoked env).

Definition set_tasks (ts : list Task) (env : Env) : Env :=
  mkEnv (now env) (rest_script env) (next_message_id env) (messages env)
        (initial_responses env) ts (invoked env).

Definition set_invoked (l : list (EmojiIdentifier * EventT)) (env : Env) : Env :=
  mkEnv (now env) (rest_script env) (next_message_id env) (messages env)
        (initial_responses env) (tasks env) l.

(** A method of an object [O] runs on the object and the world. *)
Definition self {O} : M (O * Env) O := fun st => (Return (fst st), st).

Definition set_self {O} (o : O) : M (O * Env) unit :=
  fun st => (Return tt, (o, snd st)).

Definition world {O} : M (O * Env) Env := fun st => (Return (snd st), st).

(** Run an action of the world from inside a method. *)
Definition lift {O A} (m : M Env A) : M (O * Env) A :=
  fun st => let (r, env') := m (snd st) in (r, (fst st, env')).

(** [asyncio.create_task(t)]: the task is queued, nothing of it runs yet. *)
Definition create_task (t : Task) : M Env unit :=
  fun env => (Return tt, set_tasks (tasks env ++ [t]) env).

(** One REST request: the platform answers with the head of its script. *)
Definition request : M Env unit :=
  fun env =>
    match rest_script env with
    | [] => (Return tt, env)
    | None :: s => (Return tt, set_rest_script s env)
    | Some e :: s => (Raise (Hikari e), set_rest_script s env)
    end.

(** An edit leaves a field that is [UNDEFINED] as it was. *)
Definition edit_shown (c : UndefinedOr string) (e : UndefinedOr Embed) (s : Shown) : Shown :=
  mkShown (match c with UNDEFINED => content s | Defined c' => Some c' end)
          (match e with UNDEFINED => embed s | Defined e' => Some e' end)
          (reactions s).

Definition new_shown (c : UndefinedOr string) (e : UndefinedOr Embed) : Shown :=
  mkShown (match c with UNDEFINED => None | Defined c' => Some c' end)
          (match e with UNDEFINED => None | Defined e' => Some e' end)
          [].

(** [message.edit(content=c, embed=e)]. *)
Definition Message_edit (m : Message) (c : UndefinedOr string) (e : UndefinedOr Embed) : M Env unit :=
  request >>>
  fun env => (Return tt, set_messages (alter (edit_shown c e) (Message_id m) (messages env)) env).

(** [message.delete()]. *)
Definition Message_delete (m : Message) : M Env unit :=
  request >>>
  fun env => (Return tt, set_messages (delete (Message_id m) (messages env)) env).

(** [message.add_reaction(emoji)]. *)
Definition Message_add_reaction (m : Message) (emoji : string) : M Env unit :=
  request >>>
  fun env =>
    (Return tt,
     set_messages
       (alter (fun s => mkShown (content s) (embed s) (reactions s ++ [emoji]))
              (Message_id m) (messages env)) env).

(** [message.remove_reaction(emoji)]. *)
Definition Message_remove_reaction (m : Message) (emoji : string) : M Env unit :=
  request >>>
  fun env =>
    (Return tt,
     set_messages
       (alter (fun s => mkShown (content s) (embed s)
                                (filter (fun r => r <> emoji) (reactions s)))
              (Message_id m) (messages env)) env).

(** [rest.create_message(channel_id, content=c, embed=e)]. *)
Definition rest_create_message (channel : Z) (c : UndefinedOr string) (e : UndefinedOr Embed)
  : M Env Message :=
  request >>>
  fun env =>
    let i := next_message_id env in
    (Return (mkMessage i channel),
     set_next_message_id (i + 1)%Z (set_messages (<[i := new_shown c e]> (messages env)) env)).

(** [interaction.create_initial_response(type, ...)]. *)
Definition Interaction_create_initial_response
    (i : ComponentInteraction) (type : ResponseType) (args : ResponseArgs) : M Env unit :=
  request >>>
  fun env =>
    (Return tt,
     set_initial_responses
       (initial_responses env ++ [mkInitialResponse (interaction_id i) type args]) env).

(** ** Retry loops *)

(** Modelled from the spec: [backoff.Backoff], whose module is not among
    the sources.  "finite -- stops after N attempts (configurable, default
    unlimited unless a max-retries option is set by the caller)": the
    value is the number of rounds [async for _ in retry] may make.  The
    waits between the rounds are real time and are left out, and with
    them [set_next_backoff], which only changes the next wait.  An
    unlimited schedule is cut one round after the platform's script ends:
    from there on every request succeeds, so no loop of the sources asks
    for a further round ([_edit_message_rounds] below). *)
Definition Backoff (max_retries : option Z) (env : Env) : nat :=
  match max_retries with
  | Some n => Z.to_nat n
  | None => S (length (rest_script env))
  end.

(** What one round of a loop body decides. *)
Inductive Flow (A : Type) : Type :=
| Continue
| Break (a : A).
Arguments Continue {A}.
Arguments Break {A} a.

(** [async for _ in retry: body  else: orelse], for a schedule of
    [rounds] rounds.  The [else] branch runs when the schedule is used up
    without a [break]. *)
Fixpoint async_for {St A} (rounds : nat) (body : M St (Flow A)) (orelse : M St A) : M St A :=
  match rounds with
  | O => orelse
  | S n =>
      let* f := body in
      match f with
      | Break a => ret a
      | Continue => async_for n body orelse
      end
  end.

(** How the body of a [for] loop over the triggers ends: with the next
    trigger, or with a [return] out of the whole method. *)
Inductive Exit : Type := Next | Returned.

Fixpoint for_each {St} (l : list string) (body : string -> M St Exit) : M St unit :=
  match l with
  | [] => ret tt
  | x :: l' =>
      let* e := body x in
      match e with
      | Next => for_each l' body
      | Returned => ret tt
      end
  end.

(** Modelled from the spec: [pagination.seek_iterator(iterator,
    default=None)], whose module is not among the sources.  "pull exactly
    one more item from the source sequence": the next item and the rest
    of the iterator, or the default when the iterator is used up. *)
Definition seek_iterator {A} (iterator : list A) : option A * list A :=
  match iterator with
  | [] => (None, [])
  | x :: rest => (Some x, rest)
  end.

(** [l[i]] of a Python list: a negative index counts from the end. *)
Definition getitem {A} (l : list A) (i : Z) : option A :=
  if (0 <=? i)%Z then l !! Z.to_nat i
  else if (- Z.of_nat (length l) <=? i)%Z then l !! Z.to_nat (Z.of_nat (length l) + i)
  else None.

Arguments getitem : simpl never.

(** ** reactions.py: handlers *)

(** A callback of a handler's table: one of the paginator's own bound
    methods, or a function of the library's user, which here may return or
    raise but does not reach into the handler. *)
Inductive CallbackSig : Type :=
| method__on_first
| method__on_previous
| method__on_disable
| method__on_next
| method__on_last
| function (name : string) (body : EventT -> Result unit).

(** The slots of a [ReactionHandler], followed by the four slots a
    [ReactionPaginator] adds; a plain [ReactionHandler] leaves those four
    unused.  [_lock] is left out: events are processed one at a time here,
    so the lock is free whenever an event arrives. *)
Record Handler : Type := mkHandler {
  _authors : gset Z;
  _callbacks : gmap EmojiIdentifier CallbackSig;
  _last_triggered : Z;
  _message : option Message;
  _timeout : Z;
  _buffer : list EntryT;
  _index : Z;
  _iterator : list EntryT;
  _triggers : list string;
}.

Definition set__authors (a : gset Z) (h : Handler) : Handler :=
  mkHandler a (_callbacks h) (_last_triggered h) (_message h) (_timeout h)
            (_buffer h) (_index h) (_iterator h) (_triggers h).

Definition set__callbacks (c : gmap EmojiIdentifier CallbackSig) (h : Handler) : Handler :=
  mkHandler (_authors h) c (_last_triggered h) (_message h) (_timeout h)
            (_buffer h) (_index h) (_iterator h) (_triggers h).

Definition set__last_triggered (t : Z) (h : Handler) : Handler :=
  mkHandler (_authors h) (_callbacks h) t (_message h) (_timeout h)
            (_buffer h) (_index h) (_iterator h) (_triggers h).

Definition set__message (m : option Message) (h : Handler) : Handler :=
  mkHandler (_authors h) (_callbacks h) (_last_triggered h) m (_timeout h)
            (_buffer h) (_index h) (_iterator h) (_triggers h).

Definition set__buffer (b : list EntryT) (h : Handler) : Handler :=
  mkHandler (_authors h) (_callbacks h) (_last_triggered h) (_message h) (_timeout h)
            b (_index h) (_iterator h) (_triggers h).

Definition set__index (i : Z) (h : Handler) : Handler :=
  mkHandler (_authors h) (_callbacks h) (_last_triggered h) (_message h) (_timeout h)
            (_buffer h) i (_iterator h) (_triggers h).

Definition set__iterator (it : list EntryT) (h : Handler) : Handler :=
  mkHandler (_authors h) (_callbacks h) (_last_triggered h) (_message h) (_timeout h)
            (_buffer h) (_index h) it (_triggers h).

(** [self.x = f(self.x)]. *)
Definition update {O} (f : O -> O) : M (O * Env) unit :=
  fun st => (Return tt, (f (fst st), snd st)).

(** Where an instance keeps its attributes.  [ReactionHandler.__slots__]
    names ["_author"], while [__init__] assigns [self._authors], and no
    class above it ([AbstractReactionHandler], [abc.ABC], [object]) gives
    its instances a [__dict__]: an instance of [ReactionHandler] or of
    [ReactionPaginator] itself has only the slots as declared, and no
    place for [_authors].  An instance of a subclass that declares no
    [__slots__] of its own has a [__dict__], which takes any attribute. *)
Inductive Layout : Type :=
| slots_as_declared
| with___dict__.

Module ReactionHandler.

(** [__init__(authors, timeout, load_from_attributes)] on an instance of
    the given layout.  The first statement is [self._authors = ...]; with
    the slots as declared it raises [AttributeError] before anything else
    has happened.  [members] are the members of the instance that
    [as_callback] has marked, as [inspect.getmembers] lists them; a plain
    [ReactionHandler] has none, and they are read only when
    [load_from_attributes] is set. *)
Definition __init__ (layout : Layout) (authors : list Z) (timeout : Z)
    (load_from_attributes : bool) (members : list (EmojiIdentifier * CallbackSig))
  : M Env Handler :=
  match layout with
  | slots_as_declared => raise (AttributeError "_authors")
  | with___dict__ =>
      fun env =>
        let h := mkHandler (list_to_set authors) ∅ (now env) None timeout [] 0%Z [] [] in
        (Return
           (if load_from_attributes
            then foldl (fun h' kv => set__callbacks (<[kv.1 := kv.2]> (_callbacks h')) h')
                       h members
            else h),
         env)
  end.

(** The property [expired]. *)
Definition expired (h : Handler) (env : Env) : bool :=
  (_timeout h <? now env - _last_triggered h)%Z.

Definition open (message : Message) : M (Handler * Env) unit :=
  update (set__message (Some message)).

Definition close : M (Handler * Env) unit :=
  update (set__message None).

Definition add_callback (emoji_identifier : EmojiIdentifier) (callback : CallbackSig)
  : M (Handler * Env) unit :=
  update (fun h => set__callbacks (<[emoji_identifier := callback]> (_callbacks h)) h).

Definition remove_callback (emoji_identifier : EmojiIdentifier) : M (Handler * Env) unit :=
  let* h := self in
  match _callbacks h !! emoji_identifier with
  | None =>
      raise (KeyError (match emoji_identifier with inl i => IntKey i | inr s => StrKey s end))
  | Some _ => update (fun h => set__callbacks (delete emoji_identifier (_callbacks h)) h)
  end.

End ReactionHandler.

(** [_delete_message(message)], the coroutine that [_on_disable] hands to
    the event loop. *)
Definition _delete_message (message : Message) : M Env unit :=
  fun env =>
    async_for (Backoff None env)
      (try_except
         (Message_delete message >>> ret (Break tt))
         (fun exc =>
            match exc with
            | Hikari NotFoundError | Hikari ForbiddenError => ret (Break tt)
            | Hikari InternalServerError => ret Continue
            | Hikari (RateLimitedError _) => ret Continue
            | _ => raise exc
            end))
      (ret tt) env.

Module ReactionPaginator.

(** [__init__(iterator, authors=..., triggers=..., timeout=...)] on an
    instance of the given layout.  The [isinstance] test of the iterator
    cannot fail here: [iterator] is a sequence of entries by its type.
    [super().__init__(...)] comes next, and what it raises ends the
    construction. *)
Definition __init__ (layout : Layout) (iterator : list EntryT) (authors : list Z)
    (triggers : list string) (timeout : Z) : M Env Handler :=
  let* h := ReactionHandler.__init__ layout authors timeout false [] in
  let h := mkHandler (_authors h) (_callbacks h) (_last_triggered h) (_message h)
                     (_timeout h) [] 0%Z iterator triggers in
  let add (emoji : string) (callback : CallbackSig) (h : Handler) : Handler :=
    if bool_decide (emoji ∈ triggers)
    then set__callbacks (<[inr emoji := callback]> (_callbacks h)) h
    else h in
  ret (add RIGHT_DOUBLE_TRIANGLE method__on_last
        (add RIGHT_TRIANGLE method__on_next
          (add STOP_SQUARE method__on_disable
            (add LEFT_TRIANGLE method__on_previous
              (add LEFT_DOUBLE_TRIANGLE method__on_first h))))).

(** The default of the [triggers] argument. *)
Definition default_triggers : list string := [LEFT_TRIANGLE; STOP_SQUARE; RIGHT_TRIANGLE].

(** One round of the retry loop of [_edit_message]. *)
Definition _edit_message_round (c : UndefinedOr string) (e : UndefinedOr Embed)
  : M (Handler * Env) (Flow unit) :=
  let* h := self in
  match _message h with
  | None => ret (Break tt)
  | Some message =>
      try_except
        (lift (Message_edit message c e) >>> ret (Break tt))
        (fun exc =>
           match exc with
           | Hikari InternalServerError => ret Continue
           | Hikari (RateLimitedError _) => ret Continue
           | Hikari NotFoundError | Hikari ForbiddenError => raise HandlerClosed
           | _ => raise exc
           end)
  end.

Definition _edit_message (c : UndefinedOr string) (e : UndefinedOr Embed)
  : M (Handler * Env) unit :=
  let* env := world in
  async_for (Backoff None env) (_edit_message_round c e) (ret tt).

Definition _on_disable (_ : EventT) : M (Handler * Env) unit :=
  let* h := self in
  match _message h with
  | Some message =>
      update (set__message None) >>>
      lift (create_task (_delete_message_task message)) >>>
      raise HandlerClosed
  | None => raise HandlerClosed
  end.

(** [content, embed = self._buffer[i]] followed by the edit. *)
Definition _show (i : Z) : M (Handler * Env) unit :=
  let* h := self in
  match getitem (_buffer h) i with
  | None => raise IndexError
  | Some (c, e) => _edit_message c e
  end.

Definition _on_first (_ : EventT) : M (Handler * Env) unit :=
  let* h := self in
  if negb (_index h =? 0)%Z then _show 0%Z else ret tt.

Definition _on_last (_ : EventT) : M (Handler * Env) unit :=
  update (fun h => set__iterator [] (set__buffer (_buffer h ++ _iterator h) h)) >>>
  let* h := self in
  match _buffer h with
  | [] => ret tt
  | _ :: _ =>
      update (set__index (Z.of_nat (length (_buffer h)) - 1)%Z) >>>
      _show (-1)%Z
  end.

Definition _get_next_entry : M (Handler * Env) (option EntryT) :=
  let* h := self in
  if (_index h + 2 <=? Z.of_nat (length (_buffer h)))%Z then
    update (set__index (_index h + 1)%Z) >>>
    match getitem (_buffer h) (_index h + 1)%Z with
    | None => raise IndexError
    | Some entry => ret (Some entry)
    end
  else
    match seek_iterator (_iterator h) with
    | (Some entry, rest) =>
        update (fun h => set__buffer (_buffer h ++ [entry])
                           (set__index (_index h + 1)%Z (set__iterator rest h))) >>>
        ret (Some entry)
    | (None, _) => ret None
    end.

Definition _on_next (_ : EventT) : M (Handler * Env) unit :=
  let* entry := _get_next_entry in
  match entry with
  | Some (c, e) => _edit_message c e
  | None => ret tt
  end.

Definition _on_previous (_ : EventT) : M (Handler * Env) unit :=
  let* h := self in
  if (0 <? _index h)%Z then
    update (set__index (_index h - 1)%Z) >>>
    _show (_index h - 1)%Z
  else ret tt.

Definition add_author (user : Z) : M (Handler * Env) unit :=
  update (fun h => set__authors ({[user]} ∪ _authors h) h).

Definition remove_author (user : Z) : M (Handler * Env) unit :=
  update (fun h => set__authors (_authors h ∖ {[user]}) h).

(** [close(remove_reactions=..., max_retries=..., max_backoff=...)]. *)
Definition close (remove_reactions : bool) (max_retries max_backoff : Z)
  : M (Handler * Env) unit :=
  let* h := self in
  let* env := world in
  match _message h with
  | None => ret tt
  | Some message =>
      update (set__message None) >>>
      if negb remove_reactions then ret tt
      else
        for_each (_triggers h)
          (fun emoji_name =>
             async_for (Backoff (Some max_retries) env)
               (try_except
                  (lift (Message_remove_reaction message emoji_name) >>> ret (Break Next))
                  (fun exc =>
                     match exc with
                     | Hikari NotFoundError | Hikari ForbiddenError => ret (Break Returned)
                     | Hikari (RateLimitedError _) => ret Continue
                     | Hikari InternalServerError => ret Continue
                     | _ => raise exc
                     end))
               (ret Next))
  end.

(** [open(message, add_reactions=..., max_retries=..., max_backoff=...)]. *)
Definition open (message : Message) (add_reactions : bool) (max_retries max_backoff : Z)
  : M (Handler * Env) unit :=
  ReactionHandler.open message >>>
  if negb add_reactions then ret tt
  else
    let* h := self in
    let* env := world in
    for_each (_triggers h)
      (fun emoji_name =>
         async_for (Backoff (Some (max_retries - 1)%Z) env)
           (try_except
              (lift (Message_add_reaction message emoji_name) >>> ret (Break Next))
              (fun exc =>
                 match exc with
                 | Hikari NotFoundError => update (set__message None) >>> raise exc
                 | Hikari ForbiddenError => ret (Break Returned)
                 | Hikari (RateLimitedError retry_after) =>
                     if (max_backoff <? retry_after)%Z then raise exc else ret Continue
                 | Hikari InternalServerError => ret Continue
                 | _ => raise exc
                 end))
           (lift (Message_add_reaction message emoji_name) >>> ret Next)).

(** [create_message(rest, channel_id, add_reactions=..., max_retries=...,
    max_backoff=...)]. *)
Definition create_message (channel_id : Z) (add_reactions : bool) (max_retries max_backoff : Z)
  : M (Handler * Env) Message :=
  let* h := self in
  match _message h with
  | Some _ => raise (RuntimeError "ReactionPaginator is already running")
  | None =>
      let* env := world in
      let* entry := _get_next_entry in
      match entry with
      | None => raise (ValueError "ReactionPaginator iterator yielded no pages.")
      | Some (c, e) =>
          let* message :=
            async_for (Backoff (Some (max_retries - 1)%Z) env)
              (try_except
                 (let* message := lift (rest_create_message channel_id c e) in
                  ret (Break message))
                 (fun exc =>
                    match exc with
                    | Hikari (RateLimitedError retry_after) =>
                        if (max_backoff <? retry_after)%Z then raise exc else ret Continue
                    | Hikari InternalServerError => ret Continue
                    | _ => raise exc
                    end))
              (lift (rest_create_message channel_id c e)) in
          open message add_reactions max_retries max_backoff >>>
          ret message
      end
  end.

End ReactionPaginator.

(** [await method(event)]. *)
Definition call (method : CallbackSig) (event : EventT) : M (Handler * Env) unit :=
  match method with
  | method__on_first => ReactionPaginator._on_first event
  | method__on_previous => ReactionPaginator._on_previous event
  | method__on_disable => ReactionPaginator._on_disable event
  | method__on_next => ReactionPaginator._on_next event
  | method__on_last => ReactionPaginator._on_last event
  | function _ body => fun st => (body event, st)
  end.

(** [event.emoji_id or event.emoji_name]: the id unless it is [None] or
    zero, else the name; [None] when both are missing. *)
Definition emoji_identifier_of (event : EventT) : option EmojiIdentifier :=
  match emoji_id event with
  | Some i => if (i =? 0)%Z then inr <$> emoji_name event else Some (inl i)
  | None => inr <$> emoji_name event
  end.

(** [ReactionHandler.on_reaction_event], which [ReactionPaginator]
    inherits as it is; it stands after the paginator because it calls the
    paginator's bound methods.  The bare [raise] of the expired branch has
    no exception to re-raise: Python raises
    [RuntimeError("No active exception to reraise")] there. *)
Definition on_reaction_event (event : EventT) : M (Handler * Env) unit :=
  let* h := self in
  let* env := world in
  if ReactionHandler.expired h env then
    lift (create_task close_task) >>>
    raise (RuntimeError "No active exception to reraise")
  else if bool_decide (_message h = None)
          || (bool_decide (_authors h ≠ ∅) && bool_decide (user_id event ∉ _authors h))
  then ret tt
  else
    match emoji_identifier_of event with
    | None => raise AssertionError
    | Some emoji_identifier =>
        match _callbacks h !! emoji_identifier with
        | None => ret tt
        | Some method =>
            lift (fun env => (Return tt, set_invoked (invoked env ++ [(emoji_identifier, event)]) env)) >>>
            call method event >>>
            let* env := world in
            update (set__last_triggered (now env))
        end
    end.

(** ** reactions.py: the registry *)

Record ReactionClient : Type := mkReactionClient {
  blacklist : list Z;
  _listeners : gmap Z Handler;
}.

Definition set__listeners (l : gmap Z Handler) (c : ReactionClient) : ReactionClient :=
  mkReactionClient (blacklist c) l.

Module ReactionClient.

(** The handler found in the registry is the object itself, not a copy:
    what [on_reaction_event] writes to it is written back to its entry
    before the registry goes on. *)
Definition _on_reaction_event (event : EventT) : M (ReactionClient * Env) unit :=
  let* c := self in
  if bool_decide (user_id event ∈ blacklist c) then ret tt
  else
    match _listeners c !! message_id event with
    | None => ret tt
    | Some listener =>
        fun st =>
          let '(r, (listener', env')) := on_reaction_event event (listener, snd st) in
          let c' := set__listeners (<[message_id event := listener']> (_listeners c)) c in
          match r with
          | Raise HandlerClosed =>
              (Return tt, (set__listeners (delete (message_id event) (_listeners c')) c', env'))
          | _ => (r, (c', env'))
          end
    end.

Definition add_handler (message : Z) (paginator : Handler) : M (ReactionClient * Env) unit :=
  update (fun c => set__listeners (<[message := paginator]> (_listeners c)) c).

Definition get_handler (message : Z) : M (ReactionClient * Env) (option Handler) :=
  let* c := self in
  ret (_listeners c !! message).

(** [return self._listeners.pop(snowflakes.Snowflake(message))]: a
    [pop] without a default. *)
Definition remove_handler (message : Z) : M (ReactionClient * Env) (option Handler) :=
  let* c := self in
  match _listeners c !! message with
  | None => raise (KeyError (IntKey message))
  | Some handler =>
      update (fun c => set__listeners (delete message (_listeners c)) c) >>>
      ret (Some handler)
  end.

End ReactionClient.

(** One pass of the [for] loop of [ReactionClient._gc], over the snapshot
    [tuple(self._listeners.items())]; the loop around it only sleeps five
    seconds between the passes.  [await listener.close()] is the handler's
    [close] with its default arguments, which unbinds the handler and makes
    no request ([ReactionHandler.close] does the same); the handler has
    left the registry by then. *)
Fixpoint _gc_sweep (snapshot : list (Z * Handler)) : M (ReactionClient * Env) unit :=
  match snapshot with
  | [] => ret tt
  | (listener_id, listener) :: snapshot' =>
      let* c := self in
      let* env := world in
      if negb (ReactionHandler.expired listener env)
         || negb (bool_decide (is_Some (_listeners c !! listener_id)))
      then _gc_sweep snapshot'
      else
        update (fun c => set__listeners (delete listener_id (_listeners c)) c) >>>
        (fun st =>
           let '(r, (_, env')) := ReactionPaginator.close false 5 2000 (listener, st.2) in
           (r, (st.1, env'))) >>>
        _gc_sweep snapshot'
  end.

(** The pass over the registry as it stands.  The snapshot is listed in
    the order of the map, which need not be the order in which the
    handlers were added; what a sweep leaves behind does not depend on
    the order. *)
Definition _gc : M (ReactionClient * Env) unit :=
  let* c := self in
  _gc_sweep (map_to_list (_listeners c)).

(** ** components.py *)

Definition set__has_responded (b : bool) (ctx : Context) : Context :=
  mkContext (_ephemeral_default ctx) b (_has_been_deferred ctx) (_interaction ctx)
            (_last_response_id ctx) (_response_future ctx).

Definition set__has_been_deferred (b : bool) (ctx : Context) : Context :=
  mkContext (_ephemeral_default ctx) (_has_responded ctx) b (_interaction ctx)
            (_last_response_id ctx) (_response_future ctx).

Definition set__response_future (f : option Future) (ctx : Context) : Context :=
  mkContext (_ephemeral_default ctx) (_has_responded ctx) (_has_been_deferred ctx)
            (_interaction ctx) (_last_response_id ctx) f.

(** Every keyword argument left at [hikari.UNDEFINED]. *)
Definition no_args : ResponseArgs :=
  mkArgs UNDEFINED UNDEFINED UNDEFINED UNDEFINED UNDEFINED
         UNDEFINED UNDEFINED UNDEFINED UNDEFINED UNDEFINED.

Definition with_flags (flags : Z) (a : ResponseArgs) : ResponseArgs :=
  mkArgs (arg_content a) (arg_component a) (arg_components a) (arg_embed a) (arg_embeds a)
         (arg_mentions_everyone a) (arg_user_mentions a) (arg_role_mentions a)
         (Defined flags) (arg_tts a).

Module Context.

Definition __init__ (ephemeral_default : bool) (interaction : ComponentInteraction)
    (response_future : option Future) : Context :=
  mkContext ephemeral_default false false interaction None response_future.

Definition _get_flags (ctx : Context) (flags : UndefinedOr Z) : Z :=
  match flags with
  | Defined f => f
  | UNDEFINED => if _ephemeral_default ctx then MessageFlag_EPHEMERAL else MessageFlag_NONE
  end.

(** [self._response_future.set_result(result)]: a future is resolved
    once; a second [set_result] raises [asyncio.InvalidStateError]. *)
Definition set_result (fut : Future) (result : _ResponseT) : M (Context * Env) unit :=
  match fut with
  | Pending => update (set__response_future (Some (Resolved result)))
  | Resolved _ => raise InvalidStateError
  end.

Definition defer (defer_type : ResponseType) (flags : UndefinedOr Z) : M (Context * Env) unit :=
  let* ctx := self in
  let flags := _get_flags ctx flags in
  if _has_been_deferred ctx then raise (RuntimeError "Context has already been responded to")
  else
    update (set__has_been_deferred true) >>>
    match _response_future ctx with
    | Some fut => set_result fut (InteractionDeferredBuilder defer_type flags)
    | None =>
        lift (Interaction_create_initial_response (_interaction ctx) DEFERRED_MESSAGE_CREATE
                (with_flags flags no_args))
    end.

Definition _create_initial_response (args : ResponseArgs) : M (Context * Env) unit :=
  let* ctx := self in
  let flags := _get_flags ctx (arg_flags args) in
  if _has_responded ctx then raise (RuntimeError "Initial response has already been created")
  else if _has_been_deferred ctx then
    raise (RuntimeError
             "edit_initial_response must be used to set the initial response after a context has been deferred")
  else
    update (set__has_responded true) >>>
    match _response_future ctx with
    | None =>
        lift (Interaction_create_initial_response (_interaction ctx) MESSAGE_CREATE
                (with_flags flags args))
    | Some fut =>
        let component := truthy (fun _ => true) (arg_component args) in
        let components := truthy (fun l => negb (bool_decide (l = []))) (arg_components args) in
        let embed := truthy (fun _ => true) (arg_embed args) in
        let embeds := truthy (fun l => negb (bool_decide (l = []))) (arg_embeds args) in
        if component && components
        then raise (ValueError "Only one of component or components may be passed")
        else if embed && embeds
        then raise (ValueError "Only one of embed or embeds may be passed")
        else
          set_result fut
            (InteractionMessageBuilder MESSAGE_CREATE (arg_content args)
               (match arg_component args with
                | Defined c => Defined [c]
                | UNDEFINED => arg_components args
                end)
               (match arg_embed args with
                | Defined e => Defined [e]
                | UNDEFINED => arg_embeds args
                end)
               flags (arg_tts args) (arg_mentions_everyone args)
               (arg_user_mentions args) (arg_role_mentions args))
    end.

(** [async with self._response_lock: await self._create_initial_response(...)]. *)
Definition create_initial_response (args : ResponseArgs) : M (Context * Env) unit :=
  _create_initial_response args.

End Context.

Module ComponentExecutor.

Definition add_callback (id_ : string) (callback : ComponentCallback)
  : M (ComponentExecutor * Env) unit :=
  update (fun x => mkExecutor (<[id_ := callback]> (_id_to_callback x))).

(** [execute(interaction, future=future)]: the subscript
    [self._id_to_callback[interaction.custom_id]] raises [KeyError] for
    an id without a callback. *)
Definition execute (interaction : ComponentInteraction) (future : option Future)
  : M (ComponentExecutor * Env) unit :=
  let* x := self in
  let ctx := Context.__init__ false interaction future in
  match _id_to_callback x !! custom_id interaction with
  | None => raise (KeyError (StrKey (custom_id interaction)))
  | Some listener => lift (create_task (listener_task listener ctx))
  end.

End ComponentExecutor.

(** The interaction of an [InteractionCreateEvent]. *)
Inductive PartialInteraction : Type :=
| component_interaction (i : ComponentInteraction)
| other_interaction.

(** The two awaitables [on_rest_request] passes to [asyncio.wait]. *)
Inductive Awaitable : Type :=
| the_future
| the_execution_task.

#[global] Instance Awaitable_eq_dec : EqDecision Awaitable.
Proof. solve_decision. Defined.

(** A Python value on the right of [done, pending = ...]. *)
Inductive PyValue : Type :=
| coroutine_object
| pair_of_sets (done pending : list Awaitable).

(** [asyncio.wait(aws, return_when=...)] is a coroutine function: the
    call builds a coroutine object and runs nothing of it; only [await]
    would make it yield the two sets. *)
Definition asyncio_wait (aws : list Awaitable) : PyValue := coroutine_object.

(** [done, pending = value]. *)
Definition unpack {St} (value : PyValue) : M St (list Awaitable * list Awaitable) :=
  match value with
  | coroutine_object => raise (TypeError "cannot unpack non-iterable coroutine object")
  | pair_of_sets done pending => ret (done, pending)
  end.

Module ComponentClient.

Definition add_executor (message : Z) (executor : ComponentExecutor)
  : M (ComponentClient * Env) unit :=
  update (fun c => mkComponentClient (<[message := executor]> (_executors c))).

Definition on_gateway_event (interaction : PartialInteraction) : M (ComponentClient * Env) unit :=
  match interaction with
  | other_interaction => ret tt
  | component_interaction i =>
      let* c := self in
      match _executors c !! interaction_message_id i with
      | None => ret tt
      | Some executor =>
          fun st =>
            let '(r, (_, env')) := ComponentExecutor.execute i None (executor, snd st) in
            (r, (fst st, env'))
      end
  end.

(** [on_rest_request(interaction)].  Between [create_task] and the
    unpacking there is no [await], so nothing of the execution task has
    run and [future] is still pending when the unpacking is reached. *)
Definition on_rest_request (interaction : ComponentInteraction)
  : M (ComponentClient * Env) _ResponseT :=
  let future := Pending in
  let* c := self in
  match _executors c !! interaction_message_id interaction with
  | Some executor =>
      lift (create_task (execute_task executor interaction)) >>>
      let* dp := unpack (asyncio_wait [the_future; the_execution_task]) in
      if bool_decide (the_future ∈ dp.1) then
        (* [return await future], for a future that is done *)
        match future with
        | Resolved result => ret result
        | Pending => raise InvalidStateError
        end
      else raise (RuntimeError "Execution finished without setting a response")
  | None => raise (LookupError "Not found")
  end.

End ComponentClient.

(** ** components.py: the other responses of a context *)

Definition set__last_response_id (i : option Z) (ctx : Context) : Context :=
  mkContext (_ephemeral_default ctx) (_has_responded ctx) (_has_been_deferred ctx)
            (_interaction ctx) i (_response_future ctx).

(** The keyword arguments of a follow-up or an edit: those of an initial
    response and the attachments. *)
Record MessageArgs : Type := mkMessageArgs {
  args : ResponseArgs;
  arg_attachment : UndefinedOr string;
  arg_attachments : UndefinedOr (list string);
  arg_replace_attachments : bool;
}.

Module Responses.

Section Platform.

(** The handle of the message that is the initial response to an
    interaction.  The platform makes it; the sources only pass it on. *)
Variable initial_message : ComponentInteraction -> Message.

(** [interaction.execute(...)]: the platform creates a follow-up message
    in the channel of the interaction. *)
Definition Interaction_execute (i : ComponentInteraction) (a : MessageArgs) : M Env Message :=
  request >>>
  fun env =>
    let id := next_message_id env in
    (Return (mkMessage id (Message_channel_id (initial_message i))),
     set_next_message_id (id + 1)%Z
       (set_messages
          (<[id := new_shown (arg_content (args a)) (arg_embed (args a))]> (messages env)) env)).

(** [interaction.edit_initial_response(...)],
    [interaction.fetch_initial_response()] and
    [interaction.delete_initial_response()].  What the platform shows for
    an initial response is not part of [Env]; these are the request and
    its answer. *)
Definition Interaction_edit_initial_response (i : ComponentInteraction) (a : MessageArgs)
  : M Env Message :=
  request >>> ret (initial_message i).

Definition Interaction_fetch_initial_response (i : ComponentInteraction) : M Env Message :=
  request >>> ret (initial_message i).

Definition Interaction_delete_initial_response (i : ComponentInteraction) : M Env unit :=
  request.

(** [interaction.edit_message(id, ...)], [interaction.fetch_message(id)]
    and [interaction.delete_message(id)], on a follow-up. *)
Definition Interaction_edit_message (i : ComponentInteraction) (id : Z) (a : MessageArgs)
  : M Env Message :=
  request >>>
  fun env =>
    (Return (mkMessage id (Message_channel_id (initial_message i))),
     set_messages
       (alter (edit_shown (arg_content (args a)) (arg_embed (args a))) id (messages env)) env).

Definition Interaction_fetch_message (i : ComponentInteraction) (id : Z) : M Env Message :=
  request >>> ret (mkMessage id (Message_channel_id (initial_message i))).

Definition Interaction_delete_message (i : ComponentInteraction) (id : Z) : M Env unit :=
  request >>>
  fun env => (Return tt, set_messages (delete id (messages env)) env).

Definition create_followup (a : MessageArgs) : M (Context * Env) Message :=
  let* ctx := self in
  let flags := Context._get_flags ctx (arg_flags (args a)) in
  let* message :=
    lift (Interaction_execute (_interaction ctx)
            (mkMessageArgs (with_flags flags (args a)) (arg_attachment a) (arg_attachments a)
               (arg_replace_attachments a))) in
  update (set__last_response_id (Some (Message_id message))) >>>
  ret message.

Definition delete_initial_response : M (Context * Env) unit :=
  let* ctx := self in
  lift (Interaction_delete_initial_response (_interaction ctx)).

Definition delete_last_response : M (Context * Env) unit :=
  let* ctx := self in
  match _last_response_id ctx with
  | None =>
      if _has_responded ctx
      then lift (Interaction_delete_initial_response (_interaction ctx))
      else raise (LookupError "Context has no last response")
  | Some id => lift (Interaction_delete_message (_interaction ctx) id)
  end.

Definition edit_initial_response (a : MessageArgs) : M (Context * Env) Message :=
  let* ctx := self in
  let* result := lift (Interaction_edit_initial_response (_interaction ctx) a) in
  update (set__has_responded true) >>>
  ret result.

(** [if self._last_response_id:] is the truth value of the id: [None] and
    the id 0 both go on to the next test. *)
Definition edit_last_response (a : MessageArgs) : M (Context * Env) Message :=
  let* ctx := self in
  match _last_response_id ctx with
  | Some id =>
      if negb (id =? 0)%Z
      then lift (Interaction_edit_message (_interaction ctx) id a)
      else if _has_responded ctx then edit_initial_response a
      else raise (LookupError "Context has no previous responses")
  | None =>
      if _has_responded ctx then edit_initial_response a
      else raise (LookupError "Context has no previous responses")
  end.

Definition fetch_initial_response : M (Context * Env) Message :=
  let* ctx := self in
  lift (Interaction_fetch_initial_response (_interaction ctx)).

Definition fetch_last_response : M (Context * Env) Message :=
  let* ctx := self in
  match _last_response_id ctx with
  | Some id => lift (Interaction_fetch_message (_interaction ctx) id)
  | None =>
      if _has_responded ctx then fetch_initial_response
      else raise (LookupError "Context has no previous known responses")
  end.

(** [respond(content, ensure_result=..., ...)].  It has no [flags] and no
    [tts] argument, and passes no attachments on: those are [UNDEFINED]
    in what it hands over. *)
Definition respond (a : ResponseArgs) (ensure_result : bool)
  : M (Context * Env) (option Message) :=
  let a := mkArgs (arg_content a) (arg_component a) (arg_components a) (arg_embed a)
                  (arg_embeds a) (arg_mentions_everyone a) (arg_user_mentions a)
                  (arg_role_mentions a) UNDEFINED UNDEFINED in
  let plain := mkMessageArgs a UNDEFINED UNDEFINED false in
  let* ctx := self in
  if _has_responded ctx then
    let* message := lift (Interaction_execute (_interaction ctx) plain) in
    update (set__last_response_id (Some (Message_id message))) >>>
    ret (Some message)
  else if _has_been_deferred ctx then
    let* message := edit_initial_response plain in
    ret (Some message)
  else
    Context._create_initial_response a >>>
    if ensure_result
    then let* message := lift (Interaction_fetch_initial_response (_interaction ctx)) in
         ret (Some message)
    else ret None.

End Platform.

End Responses.

(** ** components.py: the action row *)

(** [hikari.ComponentType]. *)
Inductive ComponentType : Type :=
| ACTION_ROW
| BUTTON
| SELECT_MENU.

#[global] Instance ComponentType_eq_dec : EqDecision ComponentType.
Proof. solve_decision. Defined.

(** The slots [ActionRowExecutioner.__init__] fills. *)
Record ActionRowExecutioner : Type := mkActionRow {
  _components : list ComponentBuilder;
  _stored_type : option ComponentType;
}.

(** The builder [add_select_menu] hands back. *)
Record SelectMenuBuilder : Type := mkSelectMenuBuilder {
  SelectMenuBuilder_callback : ComponentCallback;
  SelectMenuBuilder_custom_id : string;
}.

Module ActionRowExecutioner.

Definition __init__ : ActionRowExecutioner := mkActionRow [] None.

(** How the type stands in the message of the [ValueError]. *)
Definition type_name (type_ : ComponentType) : string :=
  match type_ with
  | ACTION_ROW => "ACTION_ROW"
  | BUTTON => "BUTTON"
  | SELECT_MENU => "SELECT_MENU"
  end.

Definition _assert_can_add_type (type_ : ComponentType) : M (ActionRowExecutioner * Env) unit :=
  let* row := self in
  match _stored_type row with
  | Some stored =>
      if bool_decide (stored <> type_)
      then raise (ValueError
                    (type_name type_
                     ++ " component type cannot be added to a container which already holds "
                     ++ type_name type_))
      else update (fun row => mkActionRow (_components row) (Some type_))
  | None => update (fun row => mkActionRow (_components row) (Some type_))
  end.

Definition add_component (component : ComponentBuilder) : M (ActionRowExecutioner * Env) unit :=
  update (fun row => mkActionRow (_components row ++ [component]) (_stored_type row)).

Definition add_select_menu (custom_id : string) (callback : ComponentCallback)
  : M (ActionRowExecutioner * Env) SelectMenuBuilder :=
  _assert_can_add_type SELECT_MENU >>>
  ret (mkSelectMenuBuilder callback custom_id).

End ActionRowExecutioner.

(** ** Worked inputs *)

(** A world at time [t] in which every request succeeds and nothing has
    happened yet. *)
Definition quiet (t : Z) : Env := mkEnv t [] 100%Z ∅ [] [] [].

(** A page with text and no embed. *)
Definition page (text : string) : EntryT := (Defined text, UNDEFINED).

(** A reaction with a unicode emoji. *)
Definition reaction (user message : Z) (emoji : string) : EventT :=
  mkEvent user message None (Some emoji).

Definition u1 : Z := 1%Z.
Definition u2 : Z := 2%Z.

(** The default [timeout], thirty seconds. *)
Definition thirty_seconds : Z := 30000000%Z.

(** What a run of a method leaves behind. *)
Definition handler_after {A} (x : Result A * (Handler * Env)) : Handler := x.2.1.
Definition env_after {O A} (x : Result A * (O * Env)) : Env := x.2.2.

(** The paginator of the scenarios: built over [pages] for the author
    [u1] at time 0 with the given triggers.  It is an instance of a
    subclass of [ReactionPaginator] that declares no [__slots__]
    ([class Paginator(ReactionPaginator): pass]); the class itself cannot
    be constructed. *)
Definition paginator_over (pages : list EntryT) (triggers : list string) : Handler :=
  match ReactionPaginator.__init__ with___dict__ pages [u1] triggers thirty_seconds (quiet 0) with
  | (Return h, _) => h
  | (Raise _, _) => mkHandler ∅ ∅ 0%Z None 0%Z [] 0%Z [] []
  end.

(** The text the platform shows for a message. *)
Definition displayed (env : Env) (message : Z) : option string :=
  messages env !! message ≫= content.

Definition all_triggers : list string :=
  [LEFT_DOUBLE_TRIANGLE; LEFT_TRIANGLE; STOP_SQUARE; RIGHT_TRIANGLE; RIGHT_DOUBLE_TRIANGLE].

(** A world in which the platform already shows message [message]. *)
Definition showing (message : Z) (text : string) (env : Env) : Env :=
  set_messages (<[message := mkShown (Some text) None []]> (messages env)) env.

(** A paginator over an empty source, with all five triggers, bound to
    the existing message 100 through [open], without adding reactions. *)
Definition opened_over_nothing : Handler * Env :=
  (ReactionPaginator.open (mkMessage 100 7) false 5 2000
     (paginator_over [] all_triggers, showing 100 "hello" (quiet 0))).2.

(** A paginator over three pages, with all five triggers, bound to the
    existing message 100 through [open]; nothing has been pulled yet. *)
Definition opened_over_three : Handler * Env :=
  (ReactionPaginator.open (mkMessage 100 7) false 5 2000
     (paginator_over [page "a"; page "b"; page "c"] all_triggers,
      showing 100 "hello" (quiet 0))).2.

(** The paginator of the scenario, started with [create_message] in
    channel 7 of a quiet world: three pages, the author [u1], the
    default triggers. *)
Definition started : Result Message * (Handler * Env) :=
  ReactionPaginator.create_message 7 true 5 2000
    (paginator_over [page "a"; page "b"; page "c"] ReactionPaginator.default_triggers,
     quiet 0).

(** [u1] reacts with [emoji] on message 100; what is left afterwards. *)
Definition press (emoji : string) (st : Handler * Env) : Handler * Env :=
  (on_reaction_event (reaction u1 100 emoji) st).2.

(** A handler bound to message 100 at time 0 with the default timeout,
    and a registry that holds it. *)
Definition stale : Handler :=
  set__message (Some (mkMessage 100 7))
    (paginator_over [page "a"; page "b"] ReactionPaginator.default_triggers).

Definition registry : ReactionClient := mkReactionClient [] {[ 100%Z := stale ]}.

(** Thirty-one seconds later. *)
Definition later : Env := showing 100 "a" (quiet 31000000).

(** An executor with one callback, for the id "press", registered for
    message 100. *)
Definition executor : ComponentExecutor :=
  mkExecutor {[ "press" := mkCallback "on_press" ]}.

Definition component_client : ComponentClient :=
  mkComponentClient {[ 100%Z := executor ]}.

(** [create_initial_response("hi")]. *)
Definition hi : ResponseArgs :=
  mkArgs (Defined "hi") UNDEFINED UNDEFINED UNDEFINED UNDEFINED
         UNDEFINED UNDEFINED UNDEFINED UNDEFINED UNDEFINED.

(** ** Predicates of the properties *)

(** A method that leaves a view of the object it runs on (a slot, a few
    slots) as it found it, however it ends. *)
Definition keeps {O V A} (view : O -> V) (m : M (O * Env) A) : Prop :=
  forall st, view (m st).2.1 = view st.1.

(** The slots of a paginator that hold its pages and its place in them. *)
Definition pages_of (h : Handler) : list EntryT * Z * list EntryT :=
  (_buffer h, _index h, _iterator h).

(** The two kinds of event a handler sets aside: any event that reaches
    it after [close()], and an event of a user outside a non-empty set of
    authors. *)
Inductive set_aside (event : EventT) : Handler -> Prop :=
| after_close (h : Handler) (env : Env) :
    set_aside event (handler_after (ReactionHandler.close (h, env)))
| after_paginator_close (h : Handler) (env : Env)
    (remove_reactions : bool) (max_retries max_backoff : Z) :
    set_aside event
      (handler_after (ReactionPaginator.close remove_reactions max_retries max_backoff (h, env)))
| outside_authors (h : Handler) :
    _authors h <> ∅ -> user_id event ∉ _authors h -> set_aside event h.

(** How the retry loop of [_edit_message] ends on the platform's script:
    whether the edit went through, and the answers that are left. *)
Fixpoint edit_attempts (script : list (option HikariError)) : bool * list (option HikariError) :=
  match script with
  | [] => (true, [])
  | None :: s => (true, s)
  | Some InternalServerError :: s => edit_attempts s
  | Some (RateLimitedError _) :: s => edit_attempts s
  | Some NotFoundError :: s => (false, s)
  | Some ForbiddenError :: s => (false, s)
  end.

(** The cursor of a paginator is in range when it is an index of the
    buffer or the one position past its end. *)
Definition cursor_in_range (h : Handler) : Prop :=
  (0 <= _index h <= Z.of_nat (length (_buffer h)))%Z.

(** The callbacks that are the paginator's own bound methods. *)
Definition navigation (method : CallbackSig) : bool :=
  match method with
  | function _ _ => false
  | _ => true
  end.

(** The whole of a paginator's source: what it has buffered, then what it
    has not pulled yet. *)
Definition source_of (h : Handler) : list EntryT := _buffer h ++ _iterator h.

(** A method that returns, whatever state it starts in. *)
Definition always_returns {St A} (m : M St A) : Prop :=
  forall st, exists a, (m st).1 = Return a.

(** The reactions of a shown message, with more added at the end. *)
Definition with_reactions (emojis : list string) (s : Shown) : Shown :=
  mkShown (content s) (embed s) (reactions s ++ emojis).

(** The retry loop of [create_message], as it stands in its body. *)
Definition create_loop (channel_id max_backoff : Z) (c : UndefinedOr string)
    (e : UndefinedOr Embed) (rounds : nat) : M (Handler * Env) Message :=
  async_for rounds
    (try_except
       (let* message := lift (rest_create_message channel_id c e) in
        ret (Break message))
       (fun exc =>
          match exc with
          | Hikari (RateLimitedError retry_after) =>
              if (max_backoff <? retry_after)%Z then raise exc else ret Continue
          | Hikari InternalServerError => ret Continue
          | _ => raise exc
          end))
    (lift (rest_create_message channel_id c e)).

(** What a sweep leaves of an entry of the registry. *)
Definition unless_expired (env : Env) (entry : option Handler) : option Handler :=
  match entry with
  | Some h => if ReactionHandler.expired h env then None else Some h
  | None => None
  end.

(** The callback table [ReactionPaginator.__init__] builds for a set of
    triggers: one entry for each of the five emojis that is among them. *)
Definition navigation_table (triggers : list string) : gmap EmojiIdentifier CallbackSig :=
  let registered (emoji : string) (method : CallbackSig) (m : gmap EmojiIdentifier CallbackSig) :=
    if bool_decide (emoji ∈ triggers) then <[inr emoji := method]> m else m in
  registered RIGHT_DOUBLE_TRIANGLE method__on_last
    (registered RIGHT_TRIANGLE method__on_next
      (registered STOP_SQUARE method__on_disable
        (registered LEFT_TRIANGLE method__on_previous
          (registered LEFT_DOUBLE_TRIANGLE method__on_first ∅)))).

(** * Properties *)

(** ** Starting a paginator *)

Section CreateMessage.

Variables (channel_id : Z) (add_reactions : bool) (max_retries max_backoff : Z).

(** C10.  [create_message], called while the paginator is already bound
    to a message, raises [RuntimeError] and leaves the paginator (the
    bound message, the buffer, the cursor, the source iterator) and the
    world as they were: the registered message is not replaced. *)
Theorem create_message_while_bound (h : Handler) (env : Env) (m : Message) :
  _message h = Some m ->
  ReactionPaginator.create_message channel_id add_reactions max_retries max_backoff (h, env)
  = (Raise (RuntimeError "ReactionPaginator is already running"), (h, env)).
Proof.
  intros Hbound.
  unfold ReactionPaginator.create_message, bind, self; cbn.
  now rewrite Hbound.
Qed.

(** C8.  For a paginator whose source sequence yields no entries at all
    (nothing buffered, nothing left to pull), [create_message] raises
    [ValueError] before any request is made: no message is created and
    the paginator stays unbound, exactly as it was. *)
Theorem create_message_no_pages (h : Handler) (env : Env) :
  _message h = None ->
  _buffer h = [] ->
  _iterator h = [] ->
  (0 <= _index h)%Z ->
  ReactionPaginator.create_message channel_id add_reactions max_retries max_backoff (h, env)
  = (Raise (ValueError "ReactionPaginator iterator yielded no pages."), (h, env)).
Proof.
  destruct h as [authors callbacks last message timeout buffer index iterator triggers].
  cbn; intros -> -> -> Hindex.
  unfold ReactionPaginator.create_message, ReactionPaginator._get_next_entry, bind, self, world.
  cbn.
  assert (Hle : (index + 2 <=? Z.of_nat 0)%Z = false) by (apply Z.leb_gt; cbn; lia).
  now rewrite Hle.
Qed.

End CreateMessage.

Lemma create_message_while_bound_witness :
  let h := set__message (Some (mkMessage 100 7)) (paginator_over [page "a"] ReactionPaginator.default_triggers) in
  _message h = Some (mkMessage 100 7) /\
  ReactionPaginator.create_message 7 true 5 2000 (h, quiet 0)
  = (Raise (RuntimeError "ReactionPaginator is already running"), (h, quiet 0)).
Proof.
  split; [reflexivity | apply (create_message_while_bound 7 true 5 2000 _ _ (mkMessage 100 7)); reflexivity].
Defined.

Lemma create_message_no_pages_witness :
  let h := paginator_over [] ReactionPaginator.default_triggers in
  (_message h = None /\ _buffer h = [] /\ _iterator h = [] /\ (0 <= _index h)%Z) /\
  ReactionPaginator.create_message 7 true 5 2000 (h, quiet 0)
  = (Raise (ValueError "ReactionPaginator iterator yielded no pages."), (h, quiet 0)).
Proof.
  split.
  - repeat split; vm_compute; congruence.
  - apply (create_message_no_pages 7 true 5 2000); vm_compute; congruence.
Defined.

(** ** The reaction registry *)

(** C9.  [remove_handler] raises [KeyError] when no handler is registered
    for the message id, and leaves the registry as it was; it does not
    return [None] for the absent entry, whatever its declared
    [Optional] return type says. *)
Theorem remove_handler_absent (c : ReactionClient) (env : Env) (message : Z) :
  _listeners c !! message = None ->
  ReactionClient.remove_handler message (c, env) = (Raise (KeyError (IntKey message)), (c, env))
  /\ (ReactionClient.remove_handler message (c, env)).1 <> Return None.
Proof.
  intros Habsent.
  unfold ReactionClient.remove_handler, bind, self; cbn.
  rewrite Habsent. split; [reflexivity | discriminate].
Qed.

Lemma remove_handler_absent_witness :
  let c := mkReactionClient [] {[ 100%Z := paginator_over [page "a"] ReactionPaginator.default_triggers ]} in
  _listeners c !! 5%Z = None /\
  (ReactionClient.remove_handler 5 (c, quiet 0) = (Raise (KeyError (IntKey 5)), (c, quiet 0))
   /\ (ReactionClient.remove_handler 5 (c, quiet 0)).1 <> Return None).
Proof.
  split; [reflexivity | apply remove_handler_absent; reflexivity].
Defined.

(** A registered handler is handed back and its entry is gone. *)
Lemma remove_handler_present (c : ReactionClient) (env : Env) (message : Z) (h : Handler) :
  _listeners c !! message = Some h ->
  ReactionClient.remove_handler message (c, env)
  = (Return (Some h), (set__listeners (delete message (_listeners c)) c, env)).
Proof.
  intros Hpresent.
  unfold ReactionClient.remove_handler, bind, self, update, ret; cbn.
  now rewrite Hpresent.
Qed.


(** ** Events a handler sets aside *)

Section Keeps.
Context {O V : Type} (view : O -> V).

Lemma keeps_ret {A} (a : A) : keeps view (ret a).
Proof. now intros st. Qed.

Lemma keeps_raise {A} (e : PyException) : keeps view (A:=A) (raise e).
Proof. now intros st. Qed.

Lemma keeps_lift {A} (m : M Env A) : keeps view (lift m).
Proof. intros st. unfold lift. now destruct (m st.2). Qed.

Lemma keeps_update (f : O -> O) : (forall o, view (f o) = view o) -> keeps view (update f).
Proof. intros Hf st. apply Hf. Qed.

Lemma keeps_bind {A B} (m : M (O * Env) A) (k : A -> M (O * Env) B) :
  keeps view m -> (forall a, keeps view (k a)) -> keeps view (bind m k).
Proof.
  intros Hm Hk st. unfold bind.
  specialize (Hm st). destruct (m st) as [[a|e] st']; cbn in *.
  - now rewrite Hk.
  - exact Hm.
Qed.

Lemma keeps_try_except {A} (m : M (O * Env) A) (handler : PyException -> M (O * Env) A) :
  keeps view m -> (forall e, keeps view (handler e)) -> keeps view (try_except m handler).
Proof.
  intros Hm Hh st. unfold try_except.
  specialize (Hm st). destruct (m st) as [[a|e] st']; cbn in *.
  - exact Hm.
  - now rewrite Hh.
Qed.

Lemma keeps_async_for {A} (rounds : nat) (body : M (O * Env) (Flow A)) (orelse : M (O * Env) A) :
  keeps view body -> keeps view orelse -> keeps view (async_for rounds body orelse).
Proof.
  intros Hbody Helse. induction rounds as [|n IH]; cbn; [exact Helse|].
  apply keeps_bind; [exact Hbody|].
  intros [|a]; [exact IH | apply keeps_ret].
Qed.

Lemma keeps_for_each (l : list string) (body : string -> M (O * Env) Exit) :
  (forall x, keeps view (body x)) -> keeps view (for_each l body).
Proof.
  intros Hbody. induction l as [|x l IH]; cbn; [apply keeps_ret|].
  apply keeps_bind; [apply Hbody|].
  intros [|]; [exact IH | apply keeps_ret].
Qed.

End Keeps.

Lemma paginator_close_unbinds (remove_reactions : bool) (max_retries max_backoff : Z)
    (h : Handler) (env : Env) :
  _message (handler_after (ReactionPaginator.close remove_reactions max_retries max_backoff (h, env)))
  = None.
Proof.
  unfold handler_after, ReactionPaginator.close.
  unfold bind at 1. cbn.  unfold bind at 1. cbn.
  destruct (_message h) as [message|] eqn:Hm; [|exact Hm].
  unfold bind at 1. cbn.
  destruct remove_reactions; cbn; [|reflexivity].
  rewrite (keeps_for_each _message); [reflexivity|].
  intros emoji. apply keeps_async_for; [|apply keeps_ret].
  apply keeps_try_except.
  - apply keeps_bind; [apply keeps_lift | intros; apply keeps_ret].
  - intros [ | | | | | | | | | | [ | | | ]]; try apply keeps_raise; apply keeps_ret.
Qed.

Lemma set_aside_inv (event : EventT) (h : Handler) :
  set_aside event h ->
  _message h = None \/ (_authors h <> ∅ /\ user_id event ∉ _authors h).
Proof.
  intros [h0 env | h0 env rr mr mb | h0 Hne Hout].
  - now left.
  - left. apply paginator_close_unbinds.
  - now right.
Qed.

(** C4.  An event that reaches a handler after [close()], and an event of
    a user outside a non-empty set of authors, calls no callback and
    leaves the handler as it was, [_last_triggered] included; it raises
    nothing, unless the handler has expired: then the event ends in the
    error of the expired branch, with the handler still untouched, and
    only the closing task is queued. *)
Theorem set_aside_event_is_ignored (event : EventT) (h : Handler) (env : Env) :
  set_aside event h ->
  let run := on_reaction_event event (h, env) in
  handler_after run = h /\
  invoked (env_after run) = invoked env /\
  (if ReactionHandler.expired h env
   then run.1 = Raise (RuntimeError "No active exception to reraise")
        /\ env_after run = set_tasks (tasks env ++ [close_task]) env
   else run.1 = Return tt /\ env_after run = env).
Proof.
  intros Haside. apply set_aside_inv in Haside.
  unfold on_reaction_event, handler_after, env_after, bind, self, world; cbn.
  destruct (ReactionHandler.expired h env); cbn; [easy|].
  destruct Haside as [Hclosed | [Hne Hout]].
  - rewrite Hclosed. cbn. easy.
  - rewrite (bool_decide_eq_true_2 _ Hne), (bool_decide_eq_true_2 _ Hout), orb_true_r. easy.
Qed.

Lemma set_aside_event_is_ignored_witness :
  let h := paginator_over [page "a"] ReactionPaginator.default_triggers in
  let h := set__message (Some (mkMessage 100 7)) h in
  let event := reaction u2 100 RIGHT_TRIANGLE in
  set_aside event h /\
  handler_after (on_reaction_event event (h, quiet 5)) = h /\
  invoked (env_after (on_reaction_event event (h, quiet 5))) = [] /\
  (on_reaction_event event (h, quiet 5)).1 = Return tt /\
  env_after (on_reaction_event event (h, quiet 5)) = quiet 5.
Proof.
  cbv zeta.
  assert (Hs : set_aside (reaction u2 100 RIGHT_TRIANGLE)
                 (set__message (Some (mkMessage 100 7))
                    (paginator_over [page "a"] ReactionPaginator.default_triggers))).
  { apply outside_authors; vm_compute; [discriminate | set_solver]. }
  split; [exact Hs|].
  pose proof (set_aside_event_is_ignored _ _ (quiet 5) Hs) as (H1 & H2 & H3).
  split; [exact H1|]. split; [exact H2|]. exact H3.
Defined.


(** ** Jump to last *)

Lemma getitem_last {A} (l : list A) : l <> [] -> getitem l (-1) = last l.
Proof.
  intros Hne. unfold getitem.
  destruct l as [|x l]; [congruence|]. cbn [Z.leb Z.compare].
  rewrite last_lookup.
  destruct (- Z.of_nat (length (x :: l)) <=? -1)%Z eqn:Hle.
  - f_equal. cbn [length]. lia.
  - apply Z.leb_gt in Hle. cbn [length] in Hle. lia.
Qed.

Lemma edit_rounds (c : UndefinedOr string) (e : UndefinedOr Embed) (h : Handler) (m : Message) :
  _message h = Some m ->
  forall (script : list (option HikariError)) (env : Env) (rounds : nat),
    rest_script env = script ->
    length script < rounds ->
    async_for rounds (ReactionPaginator._edit_message_round c e) (ret tt) (h, env)
    = (if (edit_attempts script).1
       then (Return tt,
             (h, set_messages (alter (edit_shown c e) (Message_id m) (messages env))
                   (set_rest_script (edit_attempts script).2 env)))
       else (Raise HandlerClosed, (h, set_rest_script (edit_attempts script).2 env))).
Proof.
  intros Hbound script.
  induction script as [|answer script IH]; intros env rounds Hscript Hrounds;
    (destruct rounds as [|rounds]; [cbn in Hrounds; lia|]);
    destruct env as [t s i ms rs ts inv]; cbn in Hscript; subst s;
    cbn [async_for]; unfold bind at 1;
    unfold ReactionPaginator._edit_message_round at 1; unfold bind at 1; cbn;
    rewrite Hbound; unfold try_except, bind, lift, Message_edit, bind, request; cbn.
  - reflexivity.
  - destruct answer as [[ | | retry_after | ]|]; cbn; try reflexivity.
    + rewrite IH; [|reflexivity|cbn in Hrounds; lia]. cbn.
      destruct (edit_attempts script).1; reflexivity.
    + rewrite IH; [|reflexivity|cbn in Hrounds; lia]. cbn.
      destruct (edit_attempts script).1; reflexivity.
Qed.

Lemma _edit_message_bound (c : UndefinedOr string) (e : UndefinedOr Embed)
    (h : Handler) (m : Message) (env : Env) :
  _message h = Some m ->
  ReactionPaginator._edit_message c e (h, env)
  = (if (edit_attempts (rest_script env)).1
     then (Return tt,
           (h, set_messages (alter (edit_shown c e) (Message_id m) (messages env))
                 (set_rest_script (edit_attempts (rest_script env)).2 env)))
     else (Raise HandlerClosed, (h, set_rest_script (edit_attempts (rest_script env)).2 env))).
Proof.
  intros Hbound. unfold ReactionPaginator._edit_message. unfold bind at 1, world.
  cbn [fst snd]. unfold Backoff.
  apply (edit_rounds c e h m Hbound); [reflexivity | lia].
Qed.

(** Any schedule longer than the script serves as the unlimited one. *)
Lemma _edit_message_rounds (c : UndefinedOr string) (e : UndefinedOr Embed)
    (h : Handler) (m : Message) (env : Env) (rounds : nat) :
  _message h = Some m ->
  length (rest_script env) < rounds ->
  async_for rounds (ReactionPaginator._edit_message_round c e) (ret tt) (h, env)
  = ReactionPaginator._edit_message c e (h, env).
Proof.
  intros Hbound Hrounds.
  rewrite (_edit_message_bound c e h m env Hbound).
  now apply edit_rounds.
Qed.

Lemma _on_last_run (h : Handler) (env : Env) (event : EventT) (m : Message) :
  _message h = Some m ->
  ReactionPaginator._on_last event (h, env)
  = let all := _buffer h ++ _iterator h in
    let h1 := set__iterator [] (set__buffer all h) in
    match last all with
    | None => (Return tt, (h1, env))
    | Some (c, e) =>
        let h2 := set__index (Z.of_nat (length all) - 1)%Z h1 in
        if (edit_attempts (rest_script env)).1
        then (Return tt,
              (h2, set_messages (alter (edit_shown c e) (Message_id m) (messages env))
                     (set_rest_script (edit_attempts (rest_script env)).2 env)))
        else (Raise HandlerClosed, (h2, set_rest_script (edit_attempts (rest_script env)).2 env))
    end.
Proof.
  intros Hbound.
  destruct h as [authors callbacks last_t message timeout buffer index iterator triggers].
  cbn in Hbound; subst message.
  unfold ReactionPaginator._on_last.
  unfold bind at 1. cbn.
  destruct (buffer ++ iterator) as [|x l] eqn:Hall; [reflexivity|].
  rewrite <- Hall.
  unfold bind at 1. cbn.
  rewrite getitem_last by (rewrite Hall; discriminate).
  destruct (last (buffer ++ iterator)) as [[c e]|] eqn:Hlast.
  - now rewrite (_edit_message_bound c e _ m) by reflexivity.
  - rewrite Hall in Hlast. apply last_None in Hlast. discriminate.
Qed.

Lemma _edit_message_unbound (c : UndefinedOr string) (e : UndefinedOr Embed)
    (h : Handler) (env : Env) :
  _message h = None ->
  ReactionPaginator._edit_message c e (h, env) = (Return tt, (h, env)).
Proof.
  intros Hunbound.
  unfold ReactionPaginator._edit_message. unfold bind at 1, world. cbn [fst snd].
  unfold Backoff. cbn [async_for]. unfold bind at 1.
  unfold ReactionPaginator._edit_message_round. unfold bind at 1, self. cbn [fst snd].
  now rewrite Hunbound.
Qed.

Lemma _on_last_run_unbound (h : Handler) (env : Env) (event : EventT) :
  _message h = None ->
  ReactionPaginator._on_last event (h, env)
  = let all := _buffer h ++ _iterator h in
    let h1 := set__iterator [] (set__buffer all h) in
    match last all with
    | None => (Return tt, (h1, env))
    | Some _ => (Return tt, (set__index (Z.of_nat (length all) - 1)%Z h1, env))
    end.
Proof.
  intros Hunbound.
  destruct h as [authors callbacks last_t message timeout buffer index iterator triggers].
  cbn in Hunbound; subst message.
  unfold ReactionPaginator._on_last.
  unfold bind at 1. cbn.
  destruct (buffer ++ iterator) as [|x l] eqn:Hall; [reflexivity|].
  rewrite <- Hall.
  unfold bind at 1. cbn.
  rewrite getitem_last by (rewrite Hall; discriminate).
  destruct (last (buffer ++ iterator)) as [[c e]|] eqn:Hlast.
  - now rewrite _edit_message_unbound by reflexivity.
  - rewrite Hall in Hlast. apply last_None in Hlast. discriminate.
Qed.

(** C7, amended.  On every paginator, jump-to-last drains the whole of the
    remaining source into the buffer.  If the buffer is then not empty,
    the cursor is [len(buffer) - 1], and on a bound paginator the last
    buffered page is sent as an edit of the bound message, with the
    outcome the platform decides: when it accepts the edit (its first
    answer that is neither a server error nor a rate limit is success)
    the call returns and the page is displayed; when it refuses (not
    found, forbidden) [HandlerClosed] is raised and the display stays.
    Either way the requests made are those up to that answer.  A
    paginator that is not bound sends nothing.  If the buffer is still
    empty, nothing is sent and the cursor stays where it was. *)
Theorem _on_last_drains (h : Handler) (env : Env) (event : EventT) :
  let run := ReactionPaginator._on_last event (h, env) in
  let h' := handler_after run in
  _buffer h' = _buffer h ++ _iterator h /\
  _iterator h' = [] /\
  match last (_buffer h') with
  | None => run.1 = Return tt /\ _index h' = _index h /\ env_after run = env
  | Some (c, e) =>
      _index h' = (Z.of_nat (length (_buffer h')) - 1)%Z /\
      match _message h with
      | None => run.1 = Return tt /\ env_after run = env
      | Some m =>
          rest_script (env_after run) = (edit_attempts (rest_script env)).2 /\
          if (edit_attempts (rest_script env)).1
          then run.1 = Return tt /\
               messages (env_after run)
               = alter (edit_shown c e) (Message_id m) (messages env)
          else run.1 = Raise HandlerClosed /\
               messages (env_after run) = messages env
      end
  end.
Proof.
  cbv zeta. unfold handler_after, env_after.
  destruct (_message h) as [m|] eqn:Hbound.
  - rewrite (_on_last_run h env event m Hbound). cbv zeta.
    destruct (last (_buffer h ++ _iterator h)) as [[c e]|] eqn:Hlast.
    + destruct (edit_attempts (rest_script env)).1 eqn:Haccepted; cbn; rewrite Hlast;
        rewrite ?Haccepted; repeat split.
    + cbn. rewrite Hlast. auto.
  - rewrite (_on_last_run_unbound h env event Hbound). cbv zeta.
    destruct (last (_buffer h ++ _iterator h)) as [[c e]|] eqn:Hlast.
    + cbn. rewrite Hlast. auto.
    + cbn. rewrite Hlast. auto.
Qed.

(** Jump-to-last on the paginator over three pages that was bound through
    [open], in a world where every request succeeds: the three pages are
    buffered, the cursor is 2, and the message shows the last page. *)
Lemma _on_last_drains_witness :
  let h := opened_over_three.1 in
  let env := opened_over_three.2 in
  let event := reaction u1 100 RIGHT_DOUBLE_TRIANGLE in
  let run := ReactionPaginator._on_last event (h, env) in
  (_buffer (handler_after run) = _buffer h ++ _iterator h /\
   _iterator (handler_after run) = [] /\
   match last (_buffer (handler_after run)) with
   | None => run.1 = Return tt /\ _index (handler_after run) = _index h /\ env_after run = env
   | Some (c, e) =>
       _index (handler_after run) = (Z.of_nat (length (_buffer (handler_after run))) - 1)%Z /\
       match _message h with
       | None => run.1 = Return tt /\ env_after run = env
       | Some m =>
           rest_script (env_after run) = (edit_attempts (rest_script env)).2 /\
           if (edit_attempts (rest_script env)).1
           then run.1 = Return tt /\
                messages (env_after run)
                = alter (edit_shown c e) (Message_id m) (messages env)
           else run.1 = Raise HandlerClosed /\
                messages (env_after run) = messages env
       end
   end) /\
  _buffer (handler_after run) = [page "a"; page "b"; page "c"] /\
  _index (handler_after run) = 2%Z /\
  displayed (env_after run) 100 = Some "c".
Proof.
  split; [|repeat split].
  exact (_on_last_drains opened_over_three.1 opened_over_three.2
           (reaction u1 100 RIGHT_DOUBLE_TRIANGLE)).
Defined.

(** C7 as stated fails in three ways.  On a paginator that was bound
    through [open] over a source without pages, the jump-to-last callback
    is called, the buffer stays empty and the cursor stays 0, which is not
    [len(buffer) - 1]; the display is not touched.  On a paginator bound
    over three pages whose message the platform no longer finds, the
    source is drained and the cursor is 2, but [HandlerClosed] is raised
    and the message still shows what it showed, not the last page.  And
    on a paginator over three pages that was never bound, the source is
    drained and the cursor is 2, but no request is made and nothing is
    displayed. *)
Lemma _on_last_counterexample :
  let event := reaction u1 100 RIGHT_DOUBLE_TRIANGLE in
  (let run := on_reaction_event event opened_over_nothing in
   run.1 = Return tt /\
   invoked (env_after run) = [(inr RIGHT_DOUBLE_TRIANGLE, event)] /\
   _buffer (handler_after run) = [] /\
   _iterator (handler_after run) = [] /\
   displayed (env_after run) 100 = Some "hello" /\
   ~ _index (handler_after run) = (Z.of_nat (length (_buffer (handler_after run))) - 1)%Z)
  /\
  (let run := on_reaction_event event
                (opened_over_three.1, set_rest_script [Some NotFoundError] opened_over_three.2) in
   run.1 = Raise HandlerClosed /\
   invoked (env_after run) = [(inr RIGHT_DOUBLE_TRIANGLE, event)] /\
   _buffer (handler_after run) = [page "a"; page "b"; page "c"] /\
   _iterator (handler_after run) = [] /\
   _index (handler_after run) = 2%Z /\
   displayed (env_after run) 100 = Some "hello")
  /\
  (let unbound := paginator_over [page "a"; page "b"; page "c"] all_triggers in
   let run := ReactionPaginator._on_last event (unbound, quiet 0) in
   _message unbound = None /\
   run.1 = Return tt /\
   _buffer (handler_after run) = [page "a"; page "b"; page "c"] /\
   _index (handler_after run) = 2%Z /\
   env_after run = quiet 0 /\
   displayed (env_after run) 100 = None).
Proof.
  vm_compute. repeat split; discriminate.
Qed.


(** ** The scenario of three pages *)

Lemma open_keeps_pages (message : Message) (add_reactions : bool) (max_retries max_backoff : Z) :
  keeps pages_of (ReactionPaginator.open message add_reactions max_retries max_backoff).
Proof.
  unfold ReactionPaginator.open, ReactionHandler.open.
  apply keeps_bind; [now apply keeps_update|]. intros _.
  destruct add_reactions; cbn [negb]; [|apply keeps_ret].
  apply keeps_bind; [now intros st|]. intros h.
  apply keeps_bind; [now intros st|]. intros env.
  apply keeps_for_each. intros emoji.
  apply keeps_async_for.
  - apply keeps_try_except.
    + apply keeps_bind; [apply keeps_lift | intros; apply keeps_ret].
    + intros [ | | | | | | | | | | [ | | retry_after | ]];
        try apply keeps_raise; try apply keeps_ret.
      * apply keeps_bind; [now apply keeps_update | intros; apply keeps_raise].
      * destruct (max_backoff <? retry_after)%Z; [apply keeps_raise | apply keeps_ret].
  - apply keeps_bind; [apply keeps_lift | intros; apply keeps_ret].
Qed.

Lemma _get_next_entry_first (h : Handler) (env : Env) (first : EntryT) (rest : list EntryT) :
  _buffer h = [] ->
  _index h = 0%Z ->
  _iterator h = first :: rest ->
  ReactionPaginator._get_next_entry (h, env)
  = (Return (Some first),
     (set__buffer [first] (set__index 1%Z (set__iterator rest h)), env)).
Proof.
  destruct h as [authors callbacks last_t message timeout buffer index iterator triggers].
  cbn. intros -> -> ->. reflexivity.
Qed.

(** Whatever the platform answers, [create_message] on a fresh paginator
    over a source with a first page leaves the cursor at 1 with that one
    page buffered: one past the page it displays. *)
Lemma create_message_cursor (channel_id : Z) (add_reactions : bool) (max_retries max_backoff : Z)
    (h : Handler) (env : Env) (first : EntryT) (rest : list EntryT) :
  _message h = None ->
  _buffer h = [] ->
  _index h = 0%Z ->
  _iterator h = first :: rest ->
  pages_of (handler_after
              (ReactionPaginator.create_message channel_id add_reactions max_retries max_backoff
                 (h, env)))
  = ([first], 1%Z, rest).
Proof.
  intros Hunbound Hbuffer Hindex Hsource.
  unfold handler_after, ReactionPaginator.create_message.
  unfold bind at 1, self at 1. cbn [fst snd]. rewrite Hunbound.
  unfold bind at 1, world at 1. cbn [fst snd].
  unfold bind at 1. rewrite (_get_next_entry_first h env first rest Hbuffer Hindex Hsource).
  destruct first as [c e].
  match goal with
  | |- pages_of (?k ?st).2.1 = _ =>
      assert (Hk : keeps pages_of k); [|rewrite (Hk st); reflexivity]
  end.
  apply keeps_bind.
  - apply keeps_async_for.
    + apply keeps_try_except.
      * apply keeps_bind; [apply keeps_lift | intros; apply keeps_ret].
      * intros [ | | | | | | | | | | [ | | retry_after | ]];
          try apply keeps_raise; try apply keeps_ret.
        destruct (max_backoff <? retry_after)%Z; [apply keeps_raise | apply keeps_ret].
    + apply keeps_lift.
  - intros message. apply keeps_bind; [apply open_keeps_pages | intros; apply keeps_ret].
Qed.

(** C1, on the code.  The paginator over the pages "a", "b", "c" with
    the author [u1] is started with [create_message], which displays "a"
    but leaves the cursor at 1 with a single page buffered.  After [u1]
    triggers next twice and previous once the message displays "c", where
    C1 expects "b"; after next once and previous once it displays "b",
    where C1 expects page 0 again. *)
Theorem next_next_previous_displays_c :
  started.1 = Return (mkMessage 100 7) /\
  displayed started.2.2 100 = Some "a" /\
  _buffer started.2.1 = [page "a"] /\
  _index started.2.1 = 1%Z /\
  displayed (press RIGHT_TRIANGLE started.2).2 100 = Some "b" /\
  displayed (press RIGHT_TRIANGLE (press RIGHT_TRIANGLE started.2)).2 100 = Some "c" /\
  displayed (press LEFT_TRIANGLE (press RIGHT_TRIANGLE (press RIGHT_TRIANGLE started.2))).2 100
  = Some "c" /\
  displayed (press LEFT_TRIANGLE (press RIGHT_TRIANGLE started.2)).2 100 = Some "b".
Proof. vm_compute. repeat split. Qed.

(** ** Expiry *)

Lemma on_reaction_event_expired (event : EventT) (h : Handler) (env : Env) :
  ReactionHandler.expired h env = true ->
  on_reaction_event event (h, env)
  = (Raise (RuntimeError "No active exception to reraise"),
     (h, set_tasks (tasks env ++ [close_task]) env)).
Proof.
  intros Hexpired. unfold on_reaction_event, bind, self, world; cbn.
  now rewrite Hexpired.
Qed.

Lemma registry_drops_closed_handler (event : EventT) (c : ReactionClient) (env : Env)
    (listener : Handler) :
  user_id event ∉ blacklist c ->
  _listeners c !! message_id event = Some listener ->
  (on_reaction_event event (listener, env)).1 = Raise HandlerClosed ->
  let run := ReactionClient._on_reaction_event event (c, env) in
  run.1 = Return tt /\ _listeners run.2.1 !! message_id event = None.
Proof.
  intros Hallowed Hfound Hclosed. cbv zeta.
  unfold ReactionClient._on_reaction_event, bind, self. cbv beta iota delta [fst snd].
  rewrite (bool_decide_eq_false_2 _ Hallowed), Hfound. cbv beta iota delta [fst snd].
  destruct (on_reaction_event event (listener, env)) as [r [listener' env']].
  cbn in Hclosed; subst r. cbn.
  split; [reflexivity | apply lookup_delete_eq].
Qed.

Lemma registry_keeps_handler_otherwise (event : EventT) (c : ReactionClient) (env : Env)
    (listener : Handler) :
  user_id event ∉ blacklist c ->
  _listeners c !! message_id event = Some listener ->
  (on_reaction_event event (listener, env)).1 <> Raise HandlerClosed ->
  let run := ReactionClient._on_reaction_event event (c, env) in
  run.1 = (on_reaction_event event (listener, env)).1 /\
  _listeners run.2.1 !! message_id event = Some (on_reaction_event event (listener, env)).2.1.
Proof.
  intros Hallowed Hfound Hopen. cbv zeta.
  unfold ReactionClient._on_reaction_event, bind, self. cbv beta iota delta [fst snd].
  rewrite (bool_decide_eq_false_2 _ Hallowed), Hfound. cbv beta iota delta [fst snd].
  destruct (on_reaction_event event (listener, env)) as [r [listener' env']].
  cbn in *.
  destruct r as [[]|exc]; cbn; [split; [reflexivity | apply lookup_insert_eq]|].
  destruct exc; cbn; try (split; [reflexivity | apply lookup_insert_eq]).
  congruence.
Qed.

(** C3, on the code.  A handler whose timeout has elapsed is registered
    for message 100; an event for that message makes [on_reaction_event]
    raise [RuntimeError] (its bare [raise] has nothing to re-raise), not
    [HandlerClosed]; the registry does not catch it, and the entry of the
    handler stays in the mapping.  No callback is called and the closing
    task is queued. *)
Theorem expired_event_raises_RuntimeError :
  let event := reaction u1 100 RIGHT_TRIANGLE in
  let run := ReactionClient._on_reaction_event event (registry, later) in
  ReactionHandler.expired stale later = true /\
  (on_reaction_event event (stale, later)).1
  = Raise (RuntimeError "No active exception to reraise") /\
  run.1 = Raise (RuntimeError "No active exception to reraise") /\
  _listeners run.2.1 !! 100%Z = Some stale /\
  invoked (env_after run) = [] /\
  tasks (env_after run) = [close_task].
Proof. vm_compute. repeat split. Qed.

(** ** Keys without a callback *)

Lemma on_reaction_event_without_callback (event : EventT) (h : Handler) (env : Env)
    (emoji_identifier : EmojiIdentifier) :
  ReactionHandler.expired h env = false ->
  emoji_identifier_of event = Some emoji_identifier ->
  _callbacks h !! emoji_identifier = None ->
  on_reaction_event event (h, env) = (Return tt, (h, env)).
Proof.
  intros Hfresh Hkey Hnone. unfold on_reaction_event, bind, self, world; cbn.
  rewrite Hfresh, Hkey, Hnone.
  now destruct (_ || _).
Qed.

Lemma execute_without_callback (interaction : ComponentInteraction) (future : option Future)
    (x : ComponentExecutor) (env : Env) :
  _id_to_callback x !! custom_id interaction = None ->
  ComponentExecutor.execute interaction future (x, env)
  = (Raise (KeyError (StrKey (custom_id interaction))), (x, env)).
Proof.
  intros Hnone. unfold ComponentExecutor.execute, bind, self; cbn.
  now rewrite Hnone.
Qed.

(** C5, on the code.  [ComponentExecutor.execute] on an interaction whose
    custom id has no callback raises [KeyError], also when it is reached
    through [on_gateway_event]; C5 expects a silent no-op. *)
Theorem execute_unknown_custom_id_raises_KeyError :
  _id_to_callback executor !! "other" = None /\
  ComponentExecutor.execute (mkInteraction 1 100 "other") None (executor, quiet 0)
  = (Raise (KeyError (StrKey "other")), (executor, quiet 0)) /\
  (ComponentClient.on_gateway_event (component_interaction (mkInteraction 1 100 "other"))
     (component_client, quiet 0)).1
  = Raise (KeyError (StrKey "other")).
Proof. vm_compute. repeat split. Qed.

(** ** The synchronous request *)

Lemma on_rest_request_registered (interaction : ComponentInteraction) (c : ComponentClient)
    (env : Env) (x : ComponentExecutor) :
  _executors c !! interaction_message_id interaction = Some x ->
  ComponentClient.on_rest_request interaction (c, env)
  = (Raise (TypeError "cannot unpack non-iterable coroutine object"),
     (c, set_tasks (tasks env ++ [execute_task x interaction]) env)).
Proof.
  intros Hfound. unfold ComponentClient.on_rest_request, bind, self; cbn.
  now rewrite Hfound.
Qed.

Lemma on_rest_request_not_found (interaction : ComponentInteraction) (c : ComponentClient)
    (env : Env) :
  _executors c !! interaction_message_id interaction = None ->
  ComponentClient.on_rest_request interaction (c, env)
  = (Raise (LookupError "Not found"), (c, env)).
Proof.
  intros Hnone. unfold ComponentClient.on_rest_request, bind, self; cbn.
  now rewrite Hnone.
Qed.

(** C2, on the code.  With an executor registered for the message of the
    interaction (and a callback for its custom id), [on_rest_request]
    queues the execution task and raises [TypeError] where it unpacks the
    coroutine object of the un-awaited [asyncio.wait]; the line that
    reports the missing response is not reached. *)
Theorem on_rest_request_raises_TypeError :
  let interaction := mkInteraction 1 100 "press" in
  _executors component_client !! 100%Z = Some executor /\
  _id_to_callback executor !! "press" = Some (mkCallback "on_press") /\
  ComponentClient.on_rest_request interaction (component_client, quiet 0)
  = (Raise (TypeError "cannot unpack non-iterable coroutine object"),
     (component_client, set_tasks [execute_task executor interaction] (quiet 0))).
Proof. vm_compute. repeat split. Qed.

(** ** One initial response *)

Section InitialResponse.

Variables (ctx : Context) (env : Env).

Lemma defer_after_defer (defer_type : ResponseType) (flags : UndefinedOr Z) :
  _has_been_deferred ctx = true ->
  Context.defer defer_type flags (ctx, env)
  = (Raise (RuntimeError "Context has already been responded to"), (ctx, env)).
Proof.
  intros Hdeferred. unfold Context.defer, bind, self; cbn. now rewrite Hdeferred.
Qed.


Lemma create_initial_response_after_defer (args : ResponseArgs) :
  _has_responded ctx = false ->
  _has_been_deferred ctx = true ->
  Context.create_initial_response args (ctx, env)
  = (Raise (RuntimeError
       "edit_initial_response must be used to set the initial response after a context has been deferred"),
     (ctx, env)).
Proof.
  intros Hresponded Hdeferred.
  unfold Context.create_initial_response, Context._create_initial_response, bind, self; cbn.
  now rewrite Hresponded, Hdeferred.
Qed.

(** [defer] looks at [_has_been_deferred] only: a context that has
    responded and was never deferred is deferred all the same, and
    without a future a second initial response goes to the platform. *)
Lemma defer_after_create_initial_response (defer_type : ResponseType) (flags : UndefinedOr Z) :
  _has_been_deferred ctx = false ->
  _response_future ctx = None ->
  rest_script env = [] ->
  Context.defer defer_type flags (ctx, env)
  = (Return tt,
     (set__has_been_deferred true ctx,
      set_initial_responses
        (initial_responses env
         ++ [mkInitialResponse (interaction_id (_interaction ctx)) DEFERRED_MESSAGE_CREATE
               (with_flags (Context._get_flags ctx flags) no_args)]) env)).
Proof.
  intros Hdeferred Hfuture Hscript.
  unfold Context.defer, bind, self; cbn.
  rewrite Hdeferred; cbn. rewrite Hfuture.
  unfold lift, Interaction_create_initial_response, bind, request; cbn.
  now rewrite Hscript.
Qed.

End InitialResponse.

(** C6, on the code.  On a context without a response future,
    [create_initial_response] followed by [defer] returns normally and a
    second initial response reaches the platform; with a response future,
    the same [defer] ends in [asyncio.InvalidStateError].  In neither
    case is it the [RuntimeError] C6 expects. *)
Theorem defer_after_create_initial_response_goes_through :
  let ctx := Context.__init__ false (mkInteraction 1 100 "press") None in
  let responded := Context.create_initial_response hi (ctx, quiet 0) in
  let deferred := Context.defer DEFERRED_MESSAGE_CREATE UNDEFINED responded.2 in
  responded.1 = Return tt /\
  _has_responded responded.2.1 = true /\
  deferred.1 = Return tt /\
  map response_type (initial_responses deferred.2.2) = [MESSAGE_CREATE; DEFERRED_MESSAGE_CREATE] /\
  (let ctx := Context.__init__ false (mkInteraction 1 100 "press") (Some Pending) in
   let responded := Context.create_initial_response hi (ctx, quiet 0) in
   let deferred := Context.defer DEFERRED_MESSAGE_CREATE UNDEFINED responded.2 in
   responded.1 = Return tt /\ deferred.1 = Raise InvalidStateError).
Proof. vm_compute. repeat split. Qed.

(** ** Navigation *)

Lemma getitem_in_range {A} (l : list A) (i : Z) :
  (0 <= i < Z.of_nat (length l))%Z -> is_Some (getitem l i).
Proof.
  intros Hi. unfold getitem.
  destruct (0 <=? i)%Z eqn:Hle; [|apply Z.leb_gt in Hle; lia].
  apply lookup_lt_is_Some. lia.
Qed.

Lemma _edit_message_keeps_self (c : UndefinedOr string) (e : UndefinedOr Embed) :
  keeps (fun h => h) (ReactionPaginator._edit_message c e).
Proof.
  unfold ReactionPaginator._edit_message.
  apply keeps_bind; [now intros st|]. intros env.
  apply keeps_async_for; [|apply keeps_ret].
  unfold ReactionPaginator._edit_message_round.
  apply keeps_bind; [now intros st|]. intros h.
  destruct (_message h) as [message|]; [|apply keeps_ret].
  apply keeps_try_except.
  - apply keeps_bind; [apply keeps_lift | intros; apply keeps_ret].
  - intros [ | | | | | | | | | | [ | | | ]]; try apply keeps_raise; apply keeps_ret.
Qed.

Lemma _edit_message_ends (c : UndefinedOr string) (e : UndefinedOr Embed)
    (h : Handler) (env : Env) :
  (ReactionPaginator._edit_message c e (h, env)).1 = Return tt
  \/ (ReactionPaginator._edit_message c e (h, env)).1 = Raise HandlerClosed.
Proof.
  destruct (_message h) as [m|] eqn:Hm.
  - rewrite (_edit_message_bound c e h m env Hm).
    destruct (edit_attempts (rest_script env)).1; [now left | now right].
  - rewrite (_edit_message_unbound c e h env Hm). now left.
Qed.

Lemma _show_keeps_self (i : Z) : keeps (fun h => h) (ReactionPaginator._show i).
Proof.
  unfold ReactionPaginator._show.
  apply keeps_bind; [now intros st|]. intros h.
  destruct (getitem (_buffer h) i) as [[c e]|]; [apply _edit_message_keeps_self | apply keeps_raise].
Qed.

Lemma _show_run (i : Z) (h : Handler) (env : Env) :
  ReactionPaginator._show i (h, env)
  = match getitem (_buffer h) i with
    | Some (c, e) => ReactionPaginator._edit_message c e (h, env)
    | None => (Raise IndexError, (h, env))
    end.
Proof.
  unfold ReactionPaginator._show. unfold bind at 1, self. cbn [fst snd].
  now destruct (getitem (_buffer h) i) as [[c e]|].
Qed.

Lemma _show_ends (i : Z) (h : Handler) (env : Env) :
  is_Some (getitem (_buffer h) i) ->
  (ReactionPaginator._show i (h, env)).1 = Return tt
  \/ (ReactionPaginator._show i (h, env)).1 = Raise HandlerClosed.
Proof.
  intros [[c e] Hentry]. rewrite _show_run, Hentry. apply _edit_message_ends.
Qed.

#[local] Arguments ReactionPaginator._show : simpl never.
#[local] Arguments ReactionPaginator._edit_message : simpl never.

Lemma _on_first_run (event : EventT) (h : Handler) (env : Env) :
  ReactionPaginator._on_first event (h, env)
  = if negb (_index h =? 0)%Z then ReactionPaginator._show 0 (h, env) else (Return tt, (h, env)).
Proof.
  unfold ReactionPaginator._on_first. unfold bind at 1, self. cbn [fst snd].
  now destruct (negb (_index h =? 0)%Z).
Qed.

Lemma _on_previous_run (event : EventT) (h : Handler) (env : Env) :
  ReactionPaginator._on_previous event (h, env)
  = if (0 <? _index h)%Z
    then ReactionPaginator._show (_index h - 1) (set__index (_index h - 1) h, env)
    else (Return tt, (h, env)).
Proof.
  unfold ReactionPaginator._on_previous. unfold bind at 1, self. cbn [fst snd].
  now destruct (0 <? _index h)%Z.
Qed.

Lemma _get_next_entry_run (h : Handler) (env : Env) :
  ReactionPaginator._get_next_entry (h, env)
  = if (_index h + 2 <=? Z.of_nat (length (_buffer h)))%Z
    then match getitem (_buffer h) (_index h + 1) with
         | Some entry => (Return (Some entry), (set__index (_index h + 1) h, env))
         | None => (Raise IndexError, (set__index (_index h + 1) h, env))
         end
    else match _iterator h with
         | entry :: rest =>
             (Return (Some entry),
              (set__buffer (_buffer h ++ [entry])
                 (set__index (_index h + 1) (set__iterator rest h)), env))
         | [] => (Return None, (h, env))
         end.
Proof.
  unfold ReactionPaginator._get_next_entry. unfold bind at 1, self. cbn [fst snd].
  destruct (_index h + 2 <=? Z.of_nat (length (_buffer h)))%Z.
  - unfold bind, update. cbn [fst snd].
    now destruct (getitem (_buffer h) (_index h + 1)).
  - now destruct (_iterator h).
Qed.

Lemma _on_next_run (event : EventT) (h : Handler) (env : Env) :
  ReactionPaginator._on_next event (h, env)
  = match ReactionPaginator._get_next_entry (h, env) with
    | (Return (Some (c, e)), st) => ReactionPaginator._edit_message c e st
    | (Return None, st) => (Return tt, st)
    | (Raise exc, st) => (Raise exc, st)
    end.
Proof.
  unfold ReactionPaginator._on_next. unfold bind at 1.
  destruct (ReactionPaginator._get_next_entry (h, env)) as [[[[c e]|]|exc] st]; reflexivity.
Qed.

Lemma _on_last_run_any (event : EventT) (h : Handler) (env : Env) :
  ReactionPaginator._on_last event (h, env)
  = let h1 := set__iterator [] (set__buffer (_buffer h ++ _iterator h) h) in
    match _buffer h ++ _iterator h with
    | [] => (Return tt, (h1, env))
    | _ :: _ =>
        ReactionPaginator._show (-1)
          (set__index (Z.of_nat (length (_buffer h ++ _iterator h)) - 1) h1, env)
    end.
Proof.
  destruct h as [authors callbacks last_t message timeout buffer index iterator triggers].
  unfold ReactionPaginator._on_last. unfold bind at 1. cbn.
  destruct (buffer ++ iterator) as [|x l] eqn:Hall; [reflexivity|].
  rewrite <- Hall. reflexivity.
Qed.

Lemma _on_disable_run (event : EventT) (h : Handler) (env : Env) :
  ReactionPaginator._on_disable event (h, env)
  = match _message h with
    | Some message =>
        (Raise HandlerClosed,
         (set__message None h, set_tasks (tasks env ++ [_delete_message_task message]) env))
    | None => (Raise HandlerClosed, (h, env))
    end.
Proof.
  unfold ReactionPaginator._on_disable. unfold bind at 1, self. cbn [fst snd].
  now destruct (_message h).
Qed.

Lemma keeps_any {O V A} (view : O -> V) (m : M (O * Env) A) :
  keeps (fun o => o) m -> keeps view m.
Proof. intros Hm st. now rewrite (Hm st). Qed.

Lemma getitem_minus_one {A} (l : list A) : l <> [] -> is_Some (getitem l (-1)).
Proof.
  intros Hne. rewrite getitem_last by exact Hne.
  destruct l as [|x l]; [congruence|]. rewrite last_lookup. apply lookup_lt_is_Some. cbn. lia.
Qed.

(** X1.  A navigation callback of the paginator ([_on_first], [_on_previous],
    [_on_disable], [_on_next], [_on_last]) that starts with the cursor in
    range (an index of the buffer, or the position just past its end)
    leaves the cursor in range, and never ends in an [IndexError],
    whatever the platform answers. *)
Theorem navigation_keeps_cursor_in_range (method : CallbackSig) (event : EventT)
    (h : Handler) (env : Env) :
  navigation method = true ->
  cursor_in_range h ->
  cursor_in_range (handler_after (call method event (h, env)))
  /\ (call method event (h, env)).1 <> Raise IndexError.
Proof.
  intros Hnav [Hlow Hhigh]. unfold handler_after, cursor_in_range.
  destruct method; try discriminate Hnav; cbn [call].
  - (* first *)
    rewrite _on_first_run.
    destruct (_index h =? 0)%Z eqn:Hzero; cbn [negb fst snd]; [split; [lia | discriminate]|].
    apply Z.eqb_neq in Hzero.
    rewrite (_show_keeps_self 0 (h, env)). cbn [fst].
    split; [lia|].
    destruct (_show_ends 0 h env) as [-> | ->]; [apply getitem_in_range; lia | discriminate..].
  - (* previous *)
    rewrite _on_previous_run.
    destruct (0 <? _index h)%Z eqn:Hpos; cbn [fst snd]; [|split; [lia | discriminate]].
    apply Z.ltb_lt in Hpos.
    rewrite (_show_keeps_self (_index h - 1) (set__index (_index h - 1) h, env)). cbn.
    split; [lia|].
    destruct (_show_ends (_index h - 1) (set__index (_index h - 1) h) env) as [-> | ->];
      [apply getitem_in_range; cbn; lia | discriminate..].
  - (* disable *)
    rewrite _on_disable_run.
    destruct (_message h); cbn; (split; [lia | discriminate]).
  - (* next *)
    rewrite _on_next_run, _get_next_entry_run.
    destruct (_index h + 2 <=? Z.of_nat (length (_buffer h)))%Z eqn:Hbehind.
    + apply Z.leb_le in Hbehind.
      destruct (getitem_in_range (_buffer h) (_index h + 1)) as [[c e] Hentry]; [lia|].
      rewrite Hentry.
      rewrite (_edit_message_keeps_self c e (set__index (_index h + 1) h, env)). cbn.
      split; [lia|].
      destruct (_edit_message_ends c e (set__index (_index h + 1) h) env) as [-> | ->];
        discriminate.
    + apply Z.leb_gt in Hbehind.
      destruct (_iterator h) as [|[c e] rest]; [cbn; split; [lia | discriminate]|].
      match goal with
      | |- context [ReactionPaginator._edit_message c e (?h', env)] =>
          rewrite (_edit_message_keeps_self c e (h', env));
          destruct (_edit_message_ends c e h' env) as [-> | ->]
      end; cbn; rewrite length_app; cbn; (split; [lia | discriminate]).
  - (* last *)
    rewrite _on_last_run_any. cbv zeta.
    destruct (_buffer h ++ _iterator h) as [|x l] eqn:Hall.
    + cbn. apply app_eq_nil in Hall as [Hb _].
      rewrite Hb in Hhigh. cbn in Hhigh. split; [lia | discriminate].
    + match goal with
      | |- context [ReactionPaginator._show (-1) (?h', env)] =>
          rewrite (_show_keeps_self (-1) (h', env));
          destruct (_show_ends (-1) h' env) as [-> | ->]
      end; try (cbn; apply getitem_minus_one; discriminate);
        cbn; (split; [lia | discriminate]).
Qed.

(** A handler takes an event to a callback when it has not expired, is
    bound, and the user is an author or there are no authors. *)
Lemma on_reaction_event_calls (event : EventT) (h : Handler) (env : Env)
    (message : Message) (key : EmojiIdentifier) (method : CallbackSig) :
  ReactionHandler.expired h env = false ->
  _message h = Some message ->
  (_authors h = ∅ \/ user_id event ∈ _authors h) ->
  emoji_identifier_of event = Some key ->
  _callbacks h !! key = Some method ->
  on_reaction_event event (h, env)
  = match call method event (h, set_invoked (invoked env ++ [(key, event)]) env) with
    | (Return _, (h', env')) => (Return tt, (set__last_triggered (now env') h', env'))
    | (Raise exc, st) => (Raise exc, st)
    end.
Proof.
  intros Hfresh Hbound Hauthor Hkey Hmethod.
  unfold on_reaction_event. unfold bind at 1, self. cbn [fst snd].
  unfold bind at 1, world. cbn [fst snd].
  rewrite Hfresh, Hbound.
  assert (bool_decide (Some message = None)
          || bool_decide (_authors h ≠ ∅) && bool_decide (user_id event ∉ _authors h) = false)
    as ->.
  { rewrite bool_decide_eq_false_2 by discriminate. cbn.
    destruct Hauthor as [Hpublic | Hin].
    - rewrite (bool_decide_eq_false_2 (_authors h ≠ ∅)); [reflexivity | now intros []].
    - rewrite (bool_decide_eq_false_2 (user_id event ∉ _authors h)); [apply andb_false_r | now intros []]. }
  rewrite Hkey, Hmethod.
  unfold bind at 1, lift. cbn [fst snd]. unfold bind at 1.
  destruct (call method event _) as [[[]|exc] [h' env']]; reflexivity.
Qed.

Section CallKeeps.
Context {V : Type} (view : Handler -> V).
Hypothesis view_index : forall i h, view (set__index i h) = view h.
Hypothesis view_message : forall m h, view (set__message m h) = view h.
Hypothesis view_pull : forall h entry rest,
  _iterator h = entry :: rest ->
  view (set__buffer (_buffer h ++ [entry]) (set__index (_index h + 1) (set__iterator rest h)))
  = view h.
Hypothesis view_drain : forall h,
  view (set__iterator [] (set__buffer (_buffer h ++ _iterator h) h)) = view h.

Lemma call_keeps (method : CallbackSig) (event : EventT) : keeps view (call method event).
Proof.
  intros [h env]. cbn [fst].
  destruct method; cbn [call].
  - rewrite _on_first_run.
    destruct (negb (_index h =? 0)%Z); [|reflexivity].
    now rewrite (_show_keeps_self 0 (h, env)).
  - rewrite _on_previous_run.
    destruct (0 <? _index h)%Z; [|reflexivity].
    rewrite (_show_keeps_self _ (_, env)). apply view_index.
  - rewrite _on_disable_run.
    destruct (_message h); [apply view_message | reflexivity].
  - rewrite _on_next_run, _get_next_entry_run.
    destruct (_index h + 2 <=? Z.of_nat (length (_buffer h)))%Z.
    + destruct (getitem (_buffer h) (_index h + 1)) as [[c e]|]; [|apply view_index].
      rewrite (_edit_message_keeps_self c e (_, env)). apply view_index.
    + destruct (_iterator h) as [|[c e] rest] eqn:Hsource; [reflexivity|].
      rewrite (_edit_message_keeps_self c e (_, env)). now apply view_pull.
  - rewrite _on_last_run_any. cbv zeta.
    pose proof (view_drain h) as Hdrain.
    destruct (_buffer h ++ _iterator h) as [|x l].
    + exact Hdrain.
    + rewrite (_show_keeps_self _ (_, env)). cbn [fst].
      now rewrite view_index.
  - reflexivity.
Qed.

Hypothesis view_last_triggered : forall t h, view (set__last_triggered t h) = view h.

Lemma on_reaction_event_keeps (event : EventT) : keeps view (on_reaction_event event).
Proof.
  intros [h env]. cbn [fst].
  unfold on_reaction_event. unfold bind at 1, self. cbn [fst snd].
  unfold bind at 1, world. cbn [fst snd].
  destruct (ReactionHandler.expired h env); [reflexivity|].
  destruct (_ || _); [reflexivity|].
  destruct (emoji_identifier_of event) as [key|]; [|reflexivity].
  destruct (_callbacks h !! key) as [method|]; [|reflexivity].
  unfold bind at 1, lift. cbn [fst snd]. unfold bind at 1.
  pose proof (call_keeps method event (h, set_invoked (invoked env ++ [(key, event)]) env)) as Hcall.
  destruct (call method event _) as [[[]|exc] [h' env']]; cbn in *; [|exact Hcall].
  now rewrite view_last_triggered.
Qed.

End CallKeeps.

(** X2.  When the callback an event selects is one of the paginator's own
    navigation methods (or the event selects none), the pages are
    conserved however the processing ends: the buffer followed by the
    pages not pulled yet is the same sequence before and after.  The
    authors, the callback table, the timeout and the triggers are
    untouched as well.  A callback of the library's user is not covered:
    it is free to change the handler it is bound to. *)
Theorem event_conserves_source (event : EventT) (h : Handler) (env : Env) :
  (forall key method,
     emoji_identifier_of event = Some key ->
     _callbacks h !! key = Some method ->
     navigation method = true) ->
  let h' := handler_after (on_reaction_event event (h, env)) in
  source_of h' = source_of h
  /\ _authors h' = _authors h
  /\ _callbacks h' = _callbacks h
  /\ _timeout h' = _timeout h
  /\ _triggers h' = _triggers h.
Proof.
  intros _. cbv zeta. unfold handler_after.
  pose proof (on_reaction_event_keeps
                (fun h => (source_of h, _authors h, _callbacks h, _timeout h, _triggers h))) as Hkeeps.
  cbv beta in Hkeeps.
  specialize (Hkeeps ltac:(reflexivity) ltac:(reflexivity)).
  assert (Hpull : forall (h0 : Handler) (entry : EntryT) (rest : list EntryT),
             _iterator h0 = entry :: rest ->
             (source_of (set__buffer (_buffer h0 ++ [entry])
                           (set__index (_index h0 + 1) (set__iterator rest h0))),
              _authors h0, _callbacks h0, _timeout h0, _triggers h0)
             = (source_of h0, _authors h0, _callbacks h0, _timeout h0, _triggers h0)).
  { intros h0 entry rest Hsource. unfold source_of. cbn.
    now rewrite Hsource, <- app_assoc. }
  specialize (Hkeeps Hpull).
  assert (Hdrain : forall h0 : Handler,
             (source_of (set__iterator [] (set__buffer (_buffer h0 ++ _iterator h0) h0)),
              _authors h0, _callbacks h0, _timeout h0, _triggers h0)
             = (source_of h0, _authors h0, _callbacks h0, _timeout h0, _triggers h0)).
  { intros h0. unfold source_of. cbn. now rewrite app_nil_r. }
  specialize (Hkeeps Hdrain ltac:(reflexivity) event (h, env)).
  cbn [fst] in Hkeeps. now inversion Hkeeps.
Qed.

(** X3.  The backward steps never pull from the source.  [_on_first] leaves the
    buffer, the cursor and the source as they were (it shows page 0
    without moving the cursor); [_on_previous] moves the cursor back by
    one when it is positive and nothing else. *)
Theorem backward_steps_read_the_buffer_only (event : EventT) (h : Handler) (env : Env) :
  pages_of (handler_after (ReactionPaginator._on_first event (h, env))) = pages_of h
  /\ pages_of (handler_after (ReactionPaginator._on_previous event (h, env)))
     = (_buffer h, (if (0 <? _index h)%Z then _index h - 1 else _index h)%Z, _iterator h).
Proof.
  unfold handler_after. split.
  - rewrite _on_first_run.
    destruct (negb (_index h =? 0)%Z); [|reflexivity].
    now rewrite (_show_keeps_self 0 (h, env)).
  - rewrite _on_previous_run.
    destruct (0 <? _index h)%Z; [|reflexivity].
    now rewrite (_show_keeps_self _ (_, env)).
Qed.

(** X4.  [_on_next] pulls at most one page.  With a page buffered ahead of the
    cursor it only advances the cursor; otherwise it moves the first page
    of the source to the end of the buffer and advances the cursor; and
    when the buffer is used up and the source is empty it returns without
    changing the handler or sending a request. *)
Theorem forward_step_pulls_at_most_one (event : EventT) (h : Handler) (env : Env) :
  let run := ReactionPaginator._on_next event (h, env) in
  pages_of (handler_after run)
  = (if (_index h + 2 <=? Z.of_nat (length (_buffer h)))%Z
     then (_buffer h, (_index h + 1)%Z, _iterator h)
     else match _iterator h with
          | entry :: rest => (_buffer h ++ [entry], (_index h + 1)%Z, rest)
          | [] => (_buffer h, _index h, [])
          end)
  /\ ((_index h + 2 <=? Z.of_nat (length (_buffer h)))%Z = false ->
      _iterator h = [] ->
      run = (Return tt, (h, env))).
Proof.
  cbv zeta. unfold handler_after. rewrite _on_next_run, _get_next_entry_run.
  destruct (_index h + 2 <=? Z.of_nat (length (_buffer h)))%Z.
  - split; [|discriminate].
    destruct (getitem (_buffer h) (_index h + 1)) as [[c e]|]; [|reflexivity].
    now rewrite (_edit_message_keeps_self c e (_, env)).
  - destruct (_iterator h) as [|[c e] rest] eqn:Hsource.
    + split; [cbn [fst snd]; unfold pages_of; now rewrite Hsource | reflexivity].
    + split; [|discriminate].
      now rewrite (_edit_message_keeps_self c e (_, env)).
Qed.

(** X5.  When an event reaches a callback of a bound, unexpired handler,
    [on_reaction_event] ends as the callback does.  When the callback
    returns, [_last_triggered] becomes the current time; when it raises,
    the exception goes to the caller and [_last_triggered] keeps its old
    value. *)
Theorem callback_refreshes_the_clock_only_when_it_returns (event : EventT) (h : Handler)
    (env : Env) (message : Message) (key : EmojiIdentifier) (method : CallbackSig) :
  ReactionHandler.expired h env = false ->
  _message h = Some message ->
  (_authors h = ∅ \/ user_id event ∈ _authors h) ->
  emoji_identifier_of event = Some key ->
  _callbacks h !! key = Some method ->
  let called := call method event (h, set_invoked (invoked env ++ [(key, event)]) env) in
  let run := on_reaction_event event (h, env) in
  match called.1 with
  | Return _ =>
      run.1 = Return tt
      /\ _last_triggered (handler_after run) = now (env_after run)
  | Raise exc =>
      run.1 = Raise exc
      /\ _last_triggered (handler_after run) = _last_triggered h
  end.
Proof.
  intros Hfresh Hbound Hauthor Hkey Hmethod. cbv zeta.
  rewrite (on_reaction_event_calls event h env message key method Hfresh Hbound Hauthor Hkey Hmethod).
  pose proof (call_keeps _last_triggered ltac:(reflexivity) ltac:(reflexivity)
                ltac:(reflexivity) ltac:(reflexivity) method event
                (h, set_invoked (invoked env ++ [(key, event)]) env)) as Hkept.
  unfold handler_after, env_after.
  destruct (call method event _) as [[[]|exc] [h' env']]; cbn in *; [easy|].
  split; [reflexivity | exact Hkept].
Qed.

(** X6.  An event that reaches an expired handler changes nothing of the handler
    and calls no callback, so the handler is still expired at any later
    time: an event cannot revive it. *)
Theorem expired_handler_stays_expired (event : EventT) (h : Handler) (env env' : Env) :
  ReactionHandler.expired h env = true ->
  (now env <= now env')%Z ->
  let run := on_reaction_event event (h, env) in
  handler_after run = h
  /\ invoked (env_after run) = invoked env
  /\ ReactionHandler.expired (handler_after run) env' = true.
Proof.
  intros Hexpired Hlater. cbv zeta.
  rewrite (on_reaction_event_expired event h env Hexpired).
  unfold handler_after, env_after. cbn.
  repeat split. unfold ReactionHandler.expired in *.
  apply Z.ltb_lt in Hexpired. apply Z.ltb_lt. lia.
Qed.

(** X7.  When an allowed user presses the stop trigger of a registered, bound and
    unexpired paginator, the registry's [_on_reaction_event] returns
    normally, the paginator is gone from the registry, and one task
    deleting its message has been handed to the event loop. *)
Theorem stop_evicts_the_handler (event : EventT) (c : ReactionClient) (env : Env)
    (listener : Handler) (message : Message) (key : EmojiIdentifier) :
  user_id event ∉ blacklist c ->
  _listeners c !! message_id event = Some listener ->
  ReactionHandler.expired listener env = false ->
  _message listener = Some message ->
  (_authors listener = ∅ \/ user_id event ∈ _authors listener) ->
  emoji_identifier_of event = Some key ->
  _callbacks listener !! key = Some method__on_disable ->
  ReactionClient._on_reaction_event event (c, env)
  = (Return tt,
     (set__listeners (delete (message_id event) (_listeners c)) c,
      set_tasks (tasks env ++ [_delete_message_task message])
        (set_invoked (invoked env ++ [(key, event)]) env))).
Proof.
  intros Hallowed Hfound Hfresh Hbound Hauthor Hkey Hmethod.
  unfold ReactionClient._on_reaction_event, bind, self. cbn [fst snd].
  rewrite (bool_decide_eq_false_2 _ Hallowed), Hfound. cbn [fst snd].
  rewrite (on_reaction_event_calls event listener env message key _
             Hfresh Hbound Hauthor Hkey Hmethod).
  cbn [call]. rewrite _on_disable_run, Hbound. cbn.
  unfold set__listeners. cbn. now rewrite delete_insert_eq.
Qed.

(** ** Deleting, closing, opening *)

Lemma delete_rounds (message : Message) :
  forall (script : list (option HikariError)) (env : Env) (rounds : nat),
    rest_script env = script ->
    length script < rounds ->
    async_for rounds
      (try_except
         (Message_delete message >>> ret (Break tt))
         (fun exc =>
            match exc with
            | Hikari NotFoundError | Hikari ForbiddenError => ret (Break tt)
            | Hikari InternalServerError => ret Continue
            | Hikari (RateLimitedError _) => ret Continue
            | _ => raise exc
            end))
      (ret tt) env
    = (Return tt,
       if (edit_attempts script).1
       then set_messages (delete (Message_id message) (messages env))
              (set_rest_script (edit_attempts script).2 env)
       else set_rest_script (edit_attempts script).2 env).
Proof.
  intros script.
  induction script as [|answer script IH]; intros env rounds Hscript Hrounds;
    (destruct rounds as [|rounds]; [cbn in Hrounds; lia|]);
    destruct env as [t s i ms rs ts inv]; cbn in Hscript; subst s;
    cbn [async_for]; unfold bind at 1;
    unfold try_except, Message_delete, bind, request; cbn.
  - reflexivity.
  - destruct answer as [[ | | retry_after | ]|]; cbn; try reflexivity.
    + rewrite IH; [|reflexivity|cbn in Hrounds; lia]. cbn.
      destruct (edit_attempts script).1; reflexivity.
    + rewrite IH; [|reflexivity|cbn in Hrounds; lia]. cbn.
      destruct (edit_attempts script).1; reflexivity.
Qed.

(** X8.  Against a platform that answers [message.delete()] with success
    or with one of the four errors the loop names (not found, forbidden,
    rate limited, internal server error), and that fails only finitely
    often, [_delete_message] returns normally.  It retries on server
    errors and rate limits, stops at the first refusal (not found or
    forbidden), and the message is gone from the platform exactly when an
    attempt got through.  The loop has no other [except] clause: an
    exception of another kind would pass through it, and is outside this
    statement. *)
Theorem _delete_message_returns_on_the_named_errors (message : Message) (env : Env) :
  _delete_message message env
  = (Return tt,
     if (edit_attempts (rest_script env)).1
     then set_messages (delete (Message_id message) (messages env))
            (set_rest_script (edit_attempts (rest_script env)).2 env)
     else set_rest_script (edit_attempts (rest_script env)).2 env).
Proof.
  unfold _delete_message, Backoff. apply delete_rounds; [reflexivity | lia].
Qed.

Section AlwaysReturns.
Context {St : Type}.

Lemma always_returns_ret {A} (a : A) : always_returns (St:=St) (ret a).
Proof. intros st. now exists a. Qed.

Lemma always_returns_bind {A B} (m : M St A) (k : A -> M St B) :
  always_returns m -> (forall a, always_returns (k a)) -> always_returns (bind m k).
Proof.
  intros Hm Hk st. unfold bind.
  destruct (Hm st) as [a Ha]. destruct (m st) as [r st']. cbn in Ha. subst r.
  apply Hk.
Qed.

Lemma always_returns_async_for {A} (rounds : nat) (body : M St (Flow A)) (orelse : M St A) :
  always_returns body -> always_returns orelse -> always_returns (async_for rounds body orelse).
Proof.
  intros Hbody Helse. induction rounds as [|n IH]; cbn; [exact Helse|].
  apply always_returns_bind; [exact Hbody|].
  intros [|a]; [exact IH | apply always_returns_ret].
Qed.

Lemma always_returns_for_each (l : list string) (body : string -> M St Exit) :
  (forall x, always_returns (body x)) -> always_returns (for_each l body).
Proof.
  intros Hbody. induction l as [|x l IH]; cbn; [apply always_returns_ret|].
  apply always_returns_bind; [apply Hbody|].
  intros [|]; [exact IH | apply always_returns_ret].
Qed.

End AlwaysReturns.

Lemma close_unbound (remove_reactions : bool) (max_retries max_backoff : Z)
    (h : Handler) (env : Env) :
  _message h = None ->
  ReactionPaginator.close remove_reactions max_retries max_backoff (h, env)
  = (Return tt, (h, env)).
Proof.
  intros Hunbound. unfold ReactionPaginator.close.
  unfold bind at 1, self. cbn [fst snd]. unfold bind at 1, world. cbn [fst snd].
  now rewrite Hunbound.
Qed.

(** X9.  Against a platform that answers each [remove_reaction] with
    success or with one of the four errors the loop names (not found,
    forbidden, rate limited, internal server error),
    [ReactionPaginator.close] returns normally and leaves the paginator
    unbound; a second [close] then does nothing at all: no request, no
    change.  The loop has no other [except] clause: an exception of
    another kind from [remove_reaction] would pass through the first
    [close], and is outside this statement. *)
Theorem close_is_safe_to_repeat (remove_reactions remove_reactions' : bool)
    (max_retries max_backoff max_retries' max_backoff' : Z) (h : Handler) (env : Env) :
  let closed := ReactionPaginator.close remove_reactions max_retries max_backoff (h, env) in
  closed.1 = Return tt
  /\ _message closed.2.1 = None
  /\ ReactionPaginator.close remove_reactions' max_retries' max_backoff' closed.2
     = (Return tt, closed.2).
Proof.
  cbv zeta.
  pose proof (paginator_close_unbinds remove_reactions max_retries max_backoff h env) as Hunbound.
  unfold handler_after in Hunbound.
  split; [|split; [exact Hunbound|]].
  - unfold ReactionPaginator.close.
    unfold bind at 1, self. cbn [fst snd]. unfold bind at 1, world. cbn [fst snd].
    destruct (_message h) as [message|]; [|reflexivity].
    unfold bind at 1, update. cbn [fst snd].
    destruct remove_reactions; cbn [negb]; [|reflexivity].
    match goal with
    | |- (for_each ?l ?body ?st).1 = _ =>
        assert (Hall : always_returns (for_each l body));
          [|destruct (Hall st) as [[] Hr]; exact Hr]
    end.
    apply always_returns_for_each.
    intros emoji. apply always_returns_async_for; [|apply always_returns_ret].
    intros [h0 env0]. unfold try_except, bind, lift, Message_remove_reaction, bind, request.
    cbn [fst snd].
    destruct (rest_script env0) as [|[[ | | | ]|] s]; cbn; eauto.
  - destruct (ReactionPaginator.close remove_reactions max_retries max_backoff (h, env))
      as [r [h' env']]. cbn [fst snd] in *. now apply close_unbound.
Qed.

Lemma with_reactions_nil (i : Z) (ms : gmap Z Shown) : alter (with_reactions []) i ms = ms.
Proof.
  apply alter_id. intros [c e r] _. unfold with_reactions. cbn. now rewrite app_nil_r.
Qed.

Lemma with_reactions_cons (i : Z) (ms : gmap Z Shown) (emoji : string) (emojis : list string) :
  alter (with_reactions emojis) i (alter (with_reactions [emoji]) i ms)
  = alter (with_reactions (emoji :: emojis)) i ms.
Proof.
  rewrite alter_alter_eq. apply alter_ext. intros [c e r] _.
  unfold with_reactions. cbn. now rewrite <- app_assoc.
Qed.

Lemma set_messages_same (env : Env) : set_messages (messages env) env = env.
Proof. now destruct env. Qed.

(** One trigger of [open], when the platform accepts the reaction at
    once: however many rounds the schedule has, also none. *)
Lemma open_trigger_quiet (message : Message) (emoji : string) (max_backoff : Z)
    (rounds : nat) (h : Handler) (env : Env) :
  rest_script env = [] ->
  async_for rounds
    (try_except
       (lift (Message_add_reaction message emoji) >>> ret (Break Next))
       (fun exc =>
          match exc with
          | Hikari NotFoundError => update (set__message None) >>> raise exc
          | Hikari ForbiddenError => ret (Break Returned)
          | Hikari (RateLimitedError retry_after) =>
              if (max_backoff <? retry_after)%Z then raise exc else ret Continue
          | Hikari InternalServerError => ret Continue
          | _ => raise exc
          end))
    (lift (Message_add_reaction message emoji) >>> ret Next) (h, env)
  = (Return Next,
     (h, set_messages (alter (with_reactions [emoji]) (Message_id message) (messages env)) env)).
Proof.
  intros Hquiet.
  destruct rounds as [|rounds]; cbn [async_for];
    unfold try_except, bind, lift, Message_add_reaction, bind, request; cbn [fst snd];
    now rewrite Hquiet.
Qed.

Lemma open_triggers_quiet (message : Message) (max_backoff : Z) (rounds : nat)
    (triggers : list string) (h : Handler) :
  forall env : Env,
    rest_script env = [] ->
    for_each triggers
      (fun emoji_name =>
         async_for rounds
           (try_except
              (lift (Message_add_reaction message emoji_name) >>> ret (Break Next))
              (fun exc =>
                 match exc with
                 | Hikari NotFoundError => update (set__message None) >>> raise exc
                 | Hikari ForbiddenError => ret (Break Returned)
                 | Hikari (RateLimitedError retry_after) =>
                     if (max_backoff <? retry_after)%Z then raise exc else ret Continue
                 | Hikari InternalServerError => ret Continue
                 | _ => raise exc
                 end))
           (lift (Message_add_reaction message emoji_name) >>> ret Next)) (h, env)
    = (Return tt,
       (h, set_messages (alter (with_reactions triggers) (Message_id message) (messages env)) env)).
Proof.
  induction triggers as [|emoji triggers IH]; intros env Hquiet; cbn [for_each].
  - unfold ret. now rewrite with_reactions_nil, set_messages_same.
  - unfold bind at 1. rewrite open_trigger_quiet by exact Hquiet.
    rewrite IH by (now destruct env). cbn [messages set_messages].
    now rewrite with_reactions_cons.
Qed.

(** [open] when every request succeeds. *)
Lemma open_quiet (message : Message) (add_reactions : bool)
    (max_retries max_backoff : Z) (h : Handler) (env : Env) :
  rest_script env = [] ->
  ReactionPaginator.open message add_reactions max_retries max_backoff (h, env)
  = (Return tt,
     (set__message (Some message) h,
      if add_reactions
      then set_messages
             (alter (with_reactions (_triggers h)) (Message_id message) (messages env)) env
      else env)).
Proof.
  intros Hquiet. unfold ReactionPaginator.open, ReactionHandler.open.
  unfold bind at 1, update. cbn [fst snd].
  destruct add_reactions; cbn [negb]; [|reflexivity].
  unfold bind at 1, self. cbn [fst snd]. unfold bind at 1, world. cbn [fst snd].
  now rewrite open_triggers_quiet.
Qed.

(** X10.  When every request succeeds, [ReactionPaginator.open] binds the
    paginator to the message and, unless [add_reactions] is false, adds
    the triggers to the message's reactions, all of them and in the order
    of [_triggers]; with [add_reactions] false it sends no request. *)
Theorem open_attaches_every_trigger (message : Message) (add_reactions : bool)
    (max_retries max_backoff : Z) (h : Handler) (env : Env) :
  rest_script env = [] ->
  ReactionPaginator.open message add_reactions max_retries max_backoff (h, env)
  = (Return tt,
     (set__message (Some message) h,
      if add_reactions
      then set_messages
             (alter (with_reactions (_triggers h)) (Message_id message) (messages env)) env
      else env)).
Proof. apply open_quiet. Qed.


(** ** Creating the message *)

Section CreateLoop.
Variables (channel_id max_backoff : Z) (c : UndefinedOr string) (e : UndefinedOr Embed).

Lemma create_loop_quiet (rounds : nat) (h : Handler) (env : Env) :
  rest_script env = [] ->
  create_loop channel_id max_backoff c e rounds (h, env)
  = (Return (mkMessage (next_message_id env) channel_id),
     (h, set_next_message_id (next_message_id env + 1)
           (set_messages (<[next_message_id env := new_shown c e]> (messages env)) env))).
Proof.
  intros Hquiet. unfold create_loop.
  destruct rounds as [|rounds]; cbn [async_for];
    unfold try_except, bind, lift, rest_create_message, bind, request; cbn [fst snd];
    now rewrite Hquiet.
Qed.

Lemma create_loop_server_errors (rounds : nat) (h : Handler) :
  forall (k : nat) (env : Env),
    rest_script env = replicate k (Some InternalServerError) ->
    create_loop channel_id max_backoff c e rounds (h, env)
    = if decide (k <= rounds)
      then (Return (mkMessage (next_message_id env) channel_id),
            (h, set_next_message_id (next_message_id env + 1)
                  (set_messages (<[next_message_id env := new_shown c e]> (messages env))
                     (set_rest_script [] env))))
      else (Raise (Hikari InternalServerError),
            (h, set_rest_script (replicate (k - rounds - 1) (Some InternalServerError)) env)).
Proof.
  induction rounds as [|rounds IH]; intros k env Hscript.
  - unfold create_loop. cbn [async_for].
    unfold lift, rest_create_message, bind, request. cbn [fst snd]. rewrite Hscript.
    destruct k as [|k]; cbn [replicate].
    + rewrite decide_True by lia. destruct env; cbn in *; now subst.
    + rewrite decide_False by lia. cbn. now rewrite Nat.sub_0_r.
  - unfold create_loop. cbn [async_for]. fold (create_loop channel_id max_backoff c e rounds).
    unfold bind at 1.
    unfold try_except, bind, lift, rest_create_message, bind, request. cbn [fst snd].
    rewrite Hscript.
    destruct k as [|k]; cbn [replicate].
    + rewrite decide_True by lia. destruct env; cbn in *; now subst.
    + cbn. rewrite (IH k) by reflexivity. cbn.
      destruct (decide (k <= rounds)).
      * now rewrite decide_True by lia.
      * now rewrite decide_False by lia.
Qed.

End CreateLoop.

Lemma create_message_run (channel_id : Z) (add_reactions : bool) (max_retries max_backoff : Z)
    (h : Handler) (env : Env) (c : UndefinedOr string) (e : UndefinedOr Embed)
    (rest : list EntryT) :
  _message h = None ->
  _buffer h = [] ->
  _index h = 0%Z ->
  _iterator h = (c, e) :: rest ->
  ReactionPaginator.create_message channel_id add_reactions max_retries max_backoff (h, env)
  = match create_loop channel_id max_backoff c e (Z.to_nat (max_retries - 1))
            (set__buffer [(c, e)] (set__index 1 (set__iterator rest h)), env) with
    | (Return message, st) =>
        match ReactionPaginator.open message add_reactions max_retries max_backoff st with
        | (Return _, st') => (Return message, st')
        | (Raise exc, st') => (Raise exc, st')
        end
    | (Raise exc, st) => (Raise exc, st)
    end.
Proof.
  intros Hunbound Hbuffer Hindex Hsource.
  unfold ReactionPaginator.create_message.
  unfold bind at 1, self at 1. cbn [fst snd]. rewrite Hunbound.
  unfold bind at 1, world at 1. cbn [fst snd].
  unfold bind at 1. rewrite (_get_next_entry_first h env (c, e) rest Hbuffer Hindex Hsource).
  unfold bind at 1. unfold Backoff.
  change (async_for (Z.to_nat (max_retries - 1)) _ _)
    with (create_loop channel_id max_backoff c e (Z.to_nat (max_retries - 1))).
  destruct (create_loop _ _ _ _ _ _) as [[message|exc] st]; [|reflexivity].
  unfold bind at 1.
  destruct (ReactionPaginator.open _ _ _ _ _) as [[[]|exc] st']; reflexivity.
Qed.

(** X12.  When every request succeeds, [create_message] on a fresh paginator with
    at least one page sends the first page as a new message, binds the
    paginator to it with the cursor on that page, and the new message
    carries the triggers as reactions (none when [add_reactions] is
    false). *)
Theorem create_message_in_a_quiet_world (channel_id : Z) (add_reactions : bool)
    (max_retries max_backoff : Z) (h : Handler) (env : Env)
    (c : UndefinedOr string) (e : UndefinedOr Embed) (rest : list EntryT) :
  _message h = None ->
  _buffer h = [] ->
  _index h = 0%Z ->
  _iterator h = (c, e) :: rest ->
  rest_script env = [] ->
  let message := mkMessage (next_message_id env) channel_id in
  ReactionPaginator.create_message channel_id add_reactions max_retries max_backoff (h, env)
  = (Return message,
     (set__message (Some message)
        (set__buffer [(c, e)] (set__index 1 (set__iterator rest h))),
      set_next_message_id (next_message_id env + 1)
        (set_messages
           (<[next_message_id env :=
                with_reactions (if add_reactions then _triggers h else []) (new_shown c e)]>
              (messages env)) env))).
Proof.
  intros Hunbound Hbuffer Hindex Hsource Hquiet. cbv zeta.
  rewrite (create_message_run _ _ _ _ h env c e rest Hunbound Hbuffer Hindex Hsource).
  rewrite create_loop_quiet by exact Hquiet.
  rewrite open_quiet by (now destruct env).
  destruct add_reactions; cbn.
  - now rewrite alter_insert_eq.
  - reflexivity.
Qed.

(** X13.  [create_message] makes one attempt to send the message in each
    round of its retry schedule, and a last one after the schedule is
    used up (the [else] branch of the loop).  Against [k] server errors in
    a row it succeeds when [k] is at most the number of rounds; otherwise
    it raises [InternalServerError] after exactly one request more than
    there are rounds, with the paginator unbound and no message created.
    The number of rounds is what [Backoff(max_retries=max_retries - 1)]
    gives; the statement does not depend on how many that is. *)
Theorem create_message_makes_a_last_attempt_after_the_schedule (channel_id : Z)
    (add_reactions : bool) (max_retries max_backoff : Z) (h : Handler) (env : Env)
    (c : UndefinedOr string) (e : UndefinedOr Embed) (rest : list EntryT) (k : nat) :
  _message h = None ->
  _buffer h = [] ->
  _index h = 0%Z ->
  _iterator h = (c, e) :: rest ->
  rest_script env = replicate k (Some InternalServerError) ->
  let rounds := Backoff (Some (max_retries - 1)%Z) env in
  let run :=
    ReactionPaginator.create_message channel_id add_reactions max_retries max_backoff (h, env) in
  if (k <=? rounds)%nat
  then run.1 = Return (mkMessage (next_message_id env) channel_id)
       /\ _message (handler_after run) = Some (mkMessage (next_message_id env) channel_id)
       /\ rest_script (env_after run) = []
  else run.1 = Raise (Hikari InternalServerError)
       /\ _message (handler_after run) = None
       /\ messages (env_after run) = messages env
       /\ rest_script (env_after run)
          = replicate (k - (rounds + 1)) (Some InternalServerError).
Proof.
  intros Hunbound Hbuffer Hindex Hsource Hscript. cbv zeta.
  rewrite (create_message_run _ _ _ _ h env c e rest Hunbound Hbuffer Hindex Hsource).
  rewrite (create_loop_server_errors _ _ _ _ _ _ k env Hscript).
  unfold handler_after, env_after, Backoff.
  destruct (k <=? Z.to_nat (max_retries - 1))%nat eqn:Hk.
  - apply Nat.leb_le in Hk. rewrite decide_True by exact Hk.
    rewrite open_quiet by reflexivity.
    destruct add_reactions; cbn; auto.
  - apply Nat.leb_gt in Hk. rewrite decide_False by lia. cbn.
    repeat split; [exact Hunbound|]. f_equal. lia.
Qed.

(** X14.  A rate limit longer than [max_backoff] on the first attempt ends
    [create_message] at once: the error is passed on after that single
    request, the paginator stays unbound, but the first page has already
    been pulled into the buffer. *)
Theorem create_message_gives_up_on_a_long_rate_limit (channel_id : Z) (add_reactions : bool)
    (max_retries max_backoff : Z) (h : Handler) (env : Env)
    (c : UndefinedOr string) (e : UndefinedOr Embed) (rest : list EntryT)
    (retry_after : Z) (script : list (option HikariError)) :
  _message h = None ->
  _buffer h = [] ->
  _index h = 0%Z ->
  _iterator h = (c, e) :: rest ->
  rest_script env = Some (RateLimitedError retry_after) :: script ->
  (max_backoff < retry_after)%Z ->
  ReactionPaginator.create_message channel_id add_reactions max_retries max_backoff (h, env)
  = (Raise (Hikari (RateLimitedError retry_after)),
     (set__buffer [(c, e)] (set__index 1 (set__iterator rest h)),
      set_rest_script script env)).
Proof.
  intros Hunbound Hbuffer Hindex Hsource Hscript Hlong.
  rewrite (create_message_run _ _ _ _ h env c e rest Hunbound Hbuffer Hindex Hsource).
  apply Z.ltb_lt in Hlong.
  unfold create_loop.
  destruct (Z.to_nat (max_retries - 1)) as [|rounds]; cbn [async_for];
    unfold try_except, bind, lift, rest_create_message, bind, request; cbn [fst snd];
    rewrite Hscript; cbn; [reflexivity|].
  now rewrite Hlong.
Qed.

(** ** The registry, continued *)

(** X15.  After [add_handler] the registry returns that handler for the message
    from [get_handler], and [remove_handler] returns it and takes it out
    again; when the message had no handler before, the registry is back
    in its old state. *)
Theorem registry_round_trip (message : Z) (paginator : Handler) (c : ReactionClient) (env : Env) :
  let added := (ReactionClient.add_handler message paginator (c, env)).2 in
  ReactionClient.get_handler message added = (Return (Some paginator), added)
  /\ (ReactionClient.remove_handler message added).1 = Return (Some paginator)
  /\ ReactionClient.get_handler message (ReactionClient.remove_handler message added).2
     = (Return None, (ReactionClient.remove_handler message added).2)
  /\ (_listeners c !! message = None ->
      (ReactionClient.remove_handler message added).2 = (c, env)).
Proof.
  cbv zeta. destruct c as [blacklist listeners].
  unfold ReactionClient.add_handler, ReactionClient.get_handler, ReactionClient.remove_handler,
    bind, self, update, ret. cbn.
  rewrite !lookup_insert_eq. cbn. rewrite !lookup_delete_eq.
  repeat split.
  intros Habsent. unfold set__listeners. cbn.
  rewrite delete_insert_eq. now rewrite delete_id.
Qed.

(** X16.  The registry ignores an event of a blacklisted user and an event on a
    message with no handler: [_on_reaction_event] returns normally with
    the registry and the world unchanged. *)
Theorem registry_ignores_strangers (event : EventT) (c : ReactionClient) (env : Env) :
  user_id event ∈ blacklist c \/ _listeners c !! message_id event = None ->
  ReactionClient._on_reaction_event event (c, env) = (Return tt, (c, env)).
Proof.
  intros Hstranger.
  unfold ReactionClient._on_reaction_event, bind, self. cbn [fst snd].
  destruct (bool_decide (user_id event ∈ blacklist c)) eqn:Hlisted; [reflexivity|].
  destruct Hstranger as [Hin | Habsent].
  - apply bool_decide_eq_false_1 in Hlisted. contradiction.
  - now rewrite Habsent.
Qed.

Lemma close_without_reactions (max_retries max_backoff : Z) (h : Handler) (env : Env) :
  exists h', ReactionPaginator.close false max_retries max_backoff (h, env)
             = (Return tt, (h', env)).
Proof.
  unfold ReactionPaginator.close.
  unfold bind at 1, self. cbn [fst snd]. unfold bind at 1, world. cbn [fst snd].
  destruct (_message h); eexists; reflexivity.
Qed.

(** The registry after a sweep of [snapshot]. *)
Lemma _gc_sweep_run (env : Env) (blacklist : list Z) :
  forall (snapshot : list (Z * Handler)) (listeners : gmap Z Handler),
    _gc_sweep snapshot (mkReactionClient blacklist listeners, env)
    = (Return tt,
       (mkReactionClient blacklist
          (foldl (fun m kv => if ReactionHandler.expired kv.2 env then delete kv.1 m else m)
                 listeners snapshot),
        env)).
Proof.
  induction snapshot as [|[listener_id listener] snapshot IH]; intros listeners;
    cbn [_gc_sweep foldl]; [reflexivity|].
  unfold bind at 1, self. cbn [fst snd]. unfold bind at 1, world. cbn [fst snd _listeners].
  destruct (ReactionHandler.expired listener env) eqn:Hexpired; cbn [negb orb]; [|apply IH].
  destruct (bool_decide (is_Some (listeners !! listener_id))) eqn:Hin; cbn [negb].
  - unfold bind at 1, update. cbn [fst snd]. unfold bind at 1.
    destruct (close_without_reactions 5 2000 listener env) as [listener' Hclose].
    cbn [fst snd]. rewrite Hclose. apply IH.
  - apply bool_decide_eq_false_1 in Hin.
    rewrite delete_id by (now apply eq_None_not_Some). apply IH.
Qed.

Lemma swept_lookup_kept (env : Env) (k : Z) :
  forall (snapshot : list (Z * Handler)) (listeners : gmap Z Handler),
    (forall h, (k, h) ∈ snapshot -> ReactionHandler.expired h env = false) ->
    foldl (fun m kv => if ReactionHandler.expired kv.2 env then delete kv.1 m else m)
          listeners snapshot !! k
    = listeners !! k.
Proof.
  induction snapshot as [|[k' h'] snapshot IH]; intros listeners Hkept; cbn [foldl];
    [reflexivity|].
  rewrite IH by (intros h Hin; apply Hkept; now apply list_elem_of_further).
  cbn [fst snd].
  destruct (ReactionHandler.expired h' env) eqn:Hexpired; [|reflexivity].
  destruct (decide (k' = k)) as [->|Hne]; [|now rewrite lookup_delete_ne].
  rewrite (Hkept h') in Hexpired; [discriminate | apply list_elem_of_here].
Qed.

Lemma swept_lookup_gone (env : Env) (k : Z) (h : Handler) :
  ReactionHandler.expired h env = true ->
  forall (snapshot : list (Z * Handler)) (listeners : gmap Z Handler),
    (k, h) ∈ snapshot ->
    foldl (fun m kv => if ReactionHandler.expired kv.2 env then delete kv.1 m else m)
          listeners snapshot !! k
    = None.
Proof.
  intros Hexpired.
  assert (Hnone : forall (snapshot : list (Z * Handler)) (listeners : gmap Z Handler),
             listeners !! k = None ->
             foldl (fun m kv => if ReactionHandler.expired kv.2 env then delete kv.1 m else m)
                   listeners snapshot !! k = None).
  { induction snapshot as [|[k' h'] snapshot IH]; intros listeners Hgone; cbn [foldl];
      [exact Hgone|].
    apply IH. cbn [fst snd].
    destruct (ReactionHandler.expired h' env); [|exact Hgone].
    destruct (decide (k' = k)) as [->|Hne];
      [apply lookup_delete_eq | now rewrite lookup_delete_ne]. }
  induction snapshot as [|[k' h'] snapshot IH]; intros listeners Hin.
  - now apply elem_of_nil in Hin.
  - cbn [foldl fst snd]. apply elem_of_cons in Hin as [Heq | Hin].
    + inversion Heq; subst k' h'. rewrite Hexpired. apply Hnone, lookup_delete_eq.
    + now apply IH.
Qed.

(** X17.  One sweep of [_gc] over a snapshot of the registry removes exactly the
    handlers that have expired: afterwards each message has its old
    handler if that had not expired, and none otherwise.  The sweep sends
    no request (it closes with the default [remove_reactions=False]) and
    does not raise. *)
Theorem gc_sweep_removes_the_expired (snapshot : list (Z * Handler)) (c : ReactionClient)
    (env : Env) :
  snapshot ≡ₚ map_to_list (_listeners c) ->
  let run := _gc_sweep snapshot (c, env) in
  run.1 = Return tt
  /\ env_after run = env
  /\ blacklist run.2.1 = blacklist c
  /\ forall k, _listeners run.2.1 !! k = unless_expired env (_listeners c !! k).
Proof.
  intros Hsnapshot. cbv zeta. destruct c as [listed listeners].
  rewrite _gc_sweep_run. unfold env_after. cbn [fst snd blacklist _listeners].
  repeat split. intros k. cbn [_listeners] in Hsnapshot.
  unfold unless_expired.
  destruct (listeners !! k) as [h|] eqn:Hk.
  - destruct (ReactionHandler.expired h env) eqn:Hexpired.
    + apply (swept_lookup_gone env k h Hexpired).
      rewrite Hsnapshot. now apply elem_of_map_to_list.
    + rewrite swept_lookup_kept; [exact Hk|].
      intros h' Hin. rewrite Hsnapshot in Hin.
      apply elem_of_map_to_list in Hin. congruence.
  - rewrite swept_lookup_kept; [exact Hk|].
    intros h' Hin. rewrite Hsnapshot in Hin.
    apply elem_of_map_to_list in Hin. congruence.
Qed.

(** ** The callback table *)

Lemma lookup_registered {K V} `{Countable K} (b : bool) (k j : K) (v : V) (m : gmap K V) :
  (if b then <[k := v]> m else m) !! j
  = if decide (k = j) then (if b then Some v else m !! j) else m !! j.
Proof.
  destruct b; [apply lookup_insert|]. now destruct (decide (k = j)).
Qed.

Lemma __init___run (iterator : list EntryT) (authors : list Z) (triggers : list string)
    (timeout : Z) (env : Env) :
  ReactionPaginator.__init__ with___dict__ iterator authors triggers timeout env
  = (Return (mkHandler (list_to_set authors) (navigation_table triggers) (now env) None
               timeout [] 0%Z iterator triggers),
     env).
Proof.
  unfold ReactionPaginator.__init__, ReactionHandler.__init__, navigation_table, bind, ret. cbn.
  repeat case_bool_decide; reflexivity.
Qed.

(** X18.  [ReactionPaginator] cannot be constructed as the class is
    written: [__slots__] of [ReactionHandler] names ["_author"], so the
    first assignment of [__init__], to [self._authors], raises
    [AttributeError], for every argument.  On an instance of a subclass
    that has a [__dict__] the construction returns, and the new paginator
    has a callback for exactly those of the five navigation emojis that
    are among its triggers, each bound to its own method, and for no
    other key; it starts unbound, with an empty buffer, the cursor at 0,
    the source untouched, the given authors, and the clock at the time of
    construction. *)
Theorem paginator_has_the_callbacks_of_its_triggers (iterator : list EntryT) (authors : list Z)
    (triggers : list string) (timeout : Z) (env : Env) :
  ReactionPaginator.__init__ slots_as_declared iterator authors triggers timeout env
  = (Raise (AttributeError "_authors"), env)
  /\ exists h,
    ReactionPaginator.__init__ with___dict__ iterator authors triggers timeout env
    = (Return h, env)
    /\ (let registered (emoji : string) (method : CallbackSig) :=
          _callbacks h !! inr emoji
          = if bool_decide (emoji ∈ triggers) then Some method else None in
        registered LEFT_DOUBLE_TRIANGLE method__on_first
        /\ registered LEFT_TRIANGLE method__on_previous
        /\ registered STOP_SQUARE method__on_disable
        /\ registered RIGHT_TRIANGLE method__on_next
        /\ registered RIGHT_DOUBLE_TRIANGLE method__on_last)
    /\ (forall key,
          key ∉ [inr LEFT_DOUBLE_TRIANGLE; inr LEFT_TRIANGLE; inr STOP_SQUARE;
                 inr RIGHT_TRIANGLE; inr RIGHT_DOUBLE_TRIANGLE] ->
          _callbacks h !! key = None)
    /\ _message h = None
    /\ pages_of h = ([], 0%Z, iterator)
    /\ _authors h = list_to_set authors
    /\ _last_triggered h = now env.
Proof.
  split; [reflexivity|].
  eexists. split; [apply __init___run|]. cbn [_callbacks _message _authors _last_triggered].
  split; [|split; [|repeat split]].
  - cbv zeta. unfold navigation_table.
    repeat split; rewrite !lookup_registered;
      repeat (rewrite decide_False by (cbv; congruence));
      rewrite ?decide_True by reflexivity; rewrite ?lookup_empty;
      now destruct (bool_decide _).
  - intros key Hother. unfold navigation_table. rewrite !lookup_registered.
    repeat (rewrite decide_False by (intros <-; apply Hother; set_solver)).
    apply lookup_empty.
Qed.

(** X19.  [add_callback] followed by [remove_callback] for the same key leaves the
    table without that key, and a second [remove_callback] raises
    [KeyError] with that key and changes nothing. *)
Theorem callbacks_round_trip (key : EmojiIdentifier) (callback : CallbackSig)
    (h : Handler) (env : Env) :
  let added := (ReactionHandler.add_callback key callback (h, env)).2 in
  let removed := ReactionHandler.remove_callback key added in
  _callbacks added.1 !! key = Some callback
  /\ removed.1 = Return tt
  /\ _callbacks removed.2.1 = delete key (_callbacks h)
  /\ ReactionHandler.remove_callback key removed.2
     = (Raise (KeyError (match key with inl i => IntKey i | inr s => StrKey s end)), removed.2).
Proof.
  cbv zeta.
  unfold ReactionHandler.add_callback, ReactionHandler.remove_callback, bind, self, update.
  cbn. rewrite lookup_insert_eq. cbn. rewrite delete_insert_eq, lookup_delete_eq.
  repeat split.
Qed.

(** ** Component dispatch *)

(** X20.  A gateway event on a message with an executor that has a callback for
    the interaction's custom id hands exactly one task to the event loop:
    that callback on a fresh context of the interaction with no future.
    The client itself is unchanged. *)
Theorem gateway_event_reaches_the_callback (i : ComponentInteraction) (c : ComponentClient)
    (env : Env) (x : ComponentExecutor) (callback : ComponentCallback) :
  _executors c !! interaction_message_id i = Some x ->
  _id_to_callback x !! custom_id i = Some callback ->
  ComponentClient.on_gateway_event (component_interaction i) (c, env)
  = (Return tt,
     (c, set_tasks (tasks env ++ [listener_task callback (Context.__init__ false i None)]) env)).
Proof.
  intros Hexecutor Hcallback.
  unfold ComponentClient.on_gateway_event, bind, self. cbn [fst snd].
  rewrite Hexecutor. unfold ComponentExecutor.execute, bind, self. cbn [fst snd].
  now rewrite Hcallback.
Qed.

(** X21.  A gateway event that is no component interaction, or one on a message
    without an executor, is ignored: no task, no request, no error. *)
Theorem gateway_event_for_nobody_is_ignored (interaction : PartialInteraction)
    (c : ComponentClient) (env : Env) :
  match interaction with
  | other_interaction => True
  | component_interaction i => _executors c !! interaction_message_id i = None
  end ->
  ComponentClient.on_gateway_event interaction (c, env) = (Return tt, (c, env)).
Proof.
  destruct interaction as [i|]; intros Hnobody; [|reflexivity].
  unfold ComponentClient.on_gateway_event, bind, self. cbn [fst snd].
  now rewrite Hnobody.
Qed.

(** X22.  [add_callback] twice for one custom id keeps the second callback:
    [execute] then schedules the second callback, and only that one. *)
Theorem executor_calls_the_last_registration (id_ : string) (first second : ComponentCallback)
    (i : ComponentInteraction) (future : option Future) (x : ComponentExecutor) (env : Env) :
  custom_id i = id_ ->
  let registered :=
    (ComponentExecutor.add_callback id_ second
       (ComponentExecutor.add_callback id_ first (x, env)).2).2 in
  ComponentExecutor.execute i future registered
  = (Return tt,
     (registered.1,
      set_tasks (tasks env ++ [listener_task second (Context.__init__ false i future)]) env)).
Proof.
  intros <-. cbv zeta.
  unfold ComponentExecutor.add_callback, ComponentExecutor.execute, bind, self, update.
  cbn. now rewrite lookup_insert_eq.
Qed.

(** ** The synchronous path of a context *)

(** X23.  On the synchronous path (a pending future and nothing sent yet),
    [defer] resolves the future with the deferred response's builder, and
    [create_initial_response] resolves it with the message's builder
    whenever its arguments are accepted, that is, unless both [component]
    and a non-empty [components], or both [embed] and a non-empty
    [embeds], are passed.  A single [component] or [embed] goes into the
    builder as a sequence of one.  Neither call sends a request: the
    world is unchanged even when the platform would refuse the next
    request. *)
Theorem future_takes_the_response_without_a_request (ctx : Context) (env : Env)
    (defer_type : ResponseType) (flags : UndefinedOr Z) (a : ResponseArgs) :
  _has_responded ctx = false ->
  _has_been_deferred ctx = false ->
  _response_future ctx = Some Pending ->
  Context.defer defer_type flags (ctx, env)
  = (Return tt,
     (set__response_future
        (Some (Resolved (InteractionDeferredBuilder defer_type (Context._get_flags ctx flags))))
        (set__has_been_deferred true ctx),
      env))
  /\ ((arg_component a = UNDEFINED \/ arg_components a = UNDEFINED
       \/ arg_components a = Defined []) ->
      (arg_embed a = UNDEFINED \/ arg_embeds a = UNDEFINED \/ arg_embeds a = Defined []) ->
      Context.create_initial_response a (ctx, env)
      = (Return tt,
         (set__response_future
            (Some (Resolved
                     (InteractionMessageBuilder MESSAGE_CREATE (arg_content a)
                        (match arg_component a with
                         | Defined c => Defined [c]
                         | UNDEFINED => arg_components a
                         end)
                        (match arg_embed a with
                         | Defined e => Defined [e]
                         | UNDEFINED => arg_embeds a
                         end)
                        (Context._get_flags ctx (arg_flags a)) (arg_tts a)
                        (arg_mentions_everyone a) (arg_user_mentions a) (arg_role_mentions a))))
            (set__has_responded true ctx),
          env))).
Proof.
  intros Hresponded Hdeferred Hfuture. split.
  - unfold Context.defer, bind, self. cbn [fst snd].
    rewrite Hdeferred, Hfuture. reflexivity.
  - intros Hcomponent Hembed.
    unfold Context.create_initial_response, Context._create_initial_response, bind, self.
    cbn [fst snd]. rewrite Hresponded, Hdeferred, Hfuture.
    assert (Hc : truthy (fun _ => true) (arg_component a)
                 && truthy (fun l => negb (bool_decide (l = []))) (arg_components a) = false).
    { destruct Hcomponent as [-> | [-> | ->]]; cbn; [reflexivity | apply andb_false_r..]. }
    assert (He : truthy (fun _ => true) (arg_embed a)
                 && truthy (fun l => negb (bool_decide (l = []))) (arg_embeds a) = false).
    { destruct Hembed as [-> | [-> | ->]]; cbn; [reflexivity | apply andb_false_r..]. }
    cbn. rewrite Hc, He. reflexivity.
Qed.


(** ** The action row *)

(** X25.  An action row holds one component type.  Once [_assert_can_add_type]
    has accepted a type, that type is stored; the same type is accepted
    again without a change, and any other type raises [ValueError] (whose
    message names the new type twice) and leaves the row as it was. *)
Theorem action_row_holds_one_type (first second : ComponentType) (row : ActionRowExecutioner)
    (env : Env) :
  let once := ActionRowExecutioner._assert_can_add_type first (row, env) in
  let twice := ActionRowExecutioner._assert_can_add_type second once.2 in
  once.1 = Return tt ->
  _stored_type once.2.1 = Some first
  /\ if decide (first = second)
     then twice = (Return tt, once.2)
     else twice.1 = Raise (ValueError
                             (ActionRowExecutioner.type_name second
                              ++ " component type cannot be added to a container which already holds "
                              ++ ActionRowExecutioner.type_name second))
          /\ twice.2 = once.2.
Proof.
  cbv zeta. destruct row as [components stored].
  unfold ActionRowExecutioner._assert_can_add_type, bind, self, update. cbn.
  destruct stored as [stored|]; cbn.
  - case_bool_decide; cbn; [discriminate|]. intros _.
    split; [reflexivity|].
    destruct (decide (first = second)) as [->|Hne].
    + rewrite bool_decide_eq_false_2 by (now intros []). reflexivity.
    + rewrite bool_decide_eq_true_2 by exact Hne. now split.
  - intros _. split; [reflexivity|].
    destruct (decide (first = second)) as [->|Hne].
    + rewrite bool_decide_eq_false_2 by (now intros []). reflexivity.
    + rewrite bool_decide_eq_true_2 by exact Hne. now split.
Qed.

(** ** The other responses of a context *)

Section ContextResponses.
Variable initial_message : ComponentInteraction -> Message.


(** X27.  After a [respond] that returned, the context has responded, and (with
    every request succeeding) a second [respond] creates a follow-up
    message, returns it, records it as the last response, and sends no
    further initial response. *)
Theorem respond_then_respond_is_a_followup (a a' : ResponseArgs) (ensure_result ensure_result' : bool)
    (ctx : Context) (env : Env) (r : option Message) :
  rest_script env = [] ->
  let first := Responses.respond initial_message a ensure_result (ctx, env) in
  first.1 = Return r ->
  let second := Responses.respond initial_message a' ensure_result' first.2 in
  let followup :=
    mkMessage (next_message_id first.2.2)
      (Message_channel_id (initial_message (_interaction ctx))) in
  _has_responded first.2.1 = true
  /\ second.1 = Return (Some followup)
  /\ _last_response_id second.2.1 = Some (Message_id followup)
  /\ initial_responses second.2.2 = initial_responses first.2.2.
Proof.
  intros Hquiet. cbv zeta.
  destruct ctx as [ephemeral responded deferred interaction last future].
  destruct env as [t s i ms rs ts inv]. cbn in Hquiet. subst s.
  unfold Responses.respond, bind, self. cbn [fst snd _has_responded _has_been_deferred].
  destruct responded; [|destruct deferred].
  - cbn. intros _. repeat split.
  - cbn. intros _. repeat split.
  - unfold Context._create_initial_response, bind, self. cbn.
    destruct future as [[|result]|]; cbn.
    + destruct (_ && _); cbn; [discriminate|].
      destruct (_ && _); cbn; [discriminate|].
      destruct ensure_result; cbn; intros _; repeat split.
    + destruct (_ && _); cbn; [discriminate|].
      destruct (_ && _); cbn; discriminate.
    + destruct ensure_result; cbn; intros _; repeat split.
Qed.

(** X28.  Before any response, the three operations on the last response
    ([delete_last_response], [edit_last_response], [fetch_last_response])
    raise [LookupError], each with its own message, send no request and
    change nothing. *)
Theorem no_last_response_before_any_response (a : MessageArgs) (ctx : Context) (env : Env) :
  _last_response_id ctx = None ->
  _has_responded ctx = false ->
  Responses.delete_last_response (ctx, env)
  = (Raise (LookupError "Context has no last response"), (ctx, env))
  /\ Responses.edit_last_response initial_message a (ctx, env)
     = (Raise (LookupError "Context has no previous responses"), (ctx, env))
  /\ Responses.fetch_last_response initial_message (ctx, env)
     = (Raise (LookupError "Context has no previous known responses"), (ctx, env)).
Proof.
  intros Hlast Hresponded.
  unfold Responses.delete_last_response, Responses.edit_last_response,
    Responses.fetch_last_response, bind, self. cbn [fst snd].
  now rewrite Hlast, Hresponded.
Qed.

(** X29.  With every request succeeding, [create_followup] returns the new message
    and makes it the last response: [fetch_last_response] returns that
    message, [delete_last_response] deletes it from the platform, and the
    platform shows it with the content and embed that were passed. *)
Theorem followup_becomes_the_last_response (a : MessageArgs) (ctx : Context) (env : Env) :
  rest_script env = [] ->
  let created := Responses.create_followup initial_message a (ctx, env) in
  let message :=
    mkMessage (next_message_id env) (Message_channel_id (initial_message (_interaction ctx))) in
  created.1 = Return message
  /\ _last_response_id created.2.1 = Some (next_message_id env)
  /\ Responses.fetch_last_response initial_message created.2 = (Return message, created.2)
  /\ messages (env_after (Responses.delete_last_response created.2)) = delete (next_message_id env)
       (messages created.2.2)
  /\ messages created.2.2 !! next_message_id env
     = Some (new_shown (arg_content (args a)) (arg_embed (args a))).
Proof.
  intros Hquiet. cbv zeta.
  destruct env as [t s i ms rs ts inv]. cbn in Hquiet. subst s.
  unfold Responses.create_followup, Responses.fetch_last_response,
    Responses.delete_last_response, env_after, bind, self, update, lift. cbn.
  rewrite lookup_insert_eq. repeat split.
Qed.

End ContextResponses.

(** ** The properties at work *)

Lemma navigation_keeps_cursor_in_range_witness :
  let event := reaction u1 100 RIGHT_TRIANGLE in
  (navigation method__on_next = true /\ cursor_in_range started.2.1) /\
  (cursor_in_range (handler_after (call method__on_next event started.2))
   /\ (call method__on_next event started.2).1 <> Raise IndexError).
Proof.
  assert (Hrange : cursor_in_range started.2.1) by (vm_compute; split; discriminate).
  split; [split; [reflexivity | exact Hrange]|].
  exact (navigation_keeps_cursor_in_range method__on_next (reaction u1 100 RIGHT_TRIANGLE)
           started.2.1 started.2.2 eq_refl Hrange).
Defined.

Lemma event_conserves_source_witness :
  let event := reaction u1 100 RIGHT_TRIANGLE in
  let h := started.2.1 in
  let h' := handler_after (on_reaction_event event started.2) in
  (forall key method,
     emoji_identifier_of event = Some key ->
     _callbacks h !! key = Some method ->
     navigation method = true) /\
  (source_of h' = source_of h
   /\ _authors h' = _authors h
   /\ _callbacks h' = _callbacks h
   /\ _timeout h' = _timeout h
   /\ _triggers h' = _triggers h) /\
  _buffer h' = [page "a"; page "b"] /\
  _iterator h' = [page "c"].
Proof.
  assert (Hnavigation : forall key method,
             emoji_identifier_of (reaction u1 100 RIGHT_TRIANGLE) = Some key ->
             _callbacks started.2.1 !! key = Some method ->
             navigation method = true).
  { intros key method Hkey Hmethod.
    injection Hkey as <-. vm_compute in Hmethod. injection Hmethod as <-. reflexivity. }
  split; [exact Hnavigation|]. split; [|split; reflexivity].
  exact (event_conserves_source (reaction u1 100 RIGHT_TRIANGLE) started.2.1 started.2.2
           Hnavigation).
Defined.

Lemma forward_step_pulls_at_most_one_witness :
  let h := (press RIGHT_TRIANGLE (press RIGHT_TRIANGLE started.2)).1 in
  let env := (press RIGHT_TRIANGLE (press RIGHT_TRIANGLE started.2)).2 in
  let event := reaction u1 100 RIGHT_TRIANGLE in
  ((_index h + 2 <=? Z.of_nat (length (_buffer h)))%Z = false /\ _iterator h = []) /\
  ReactionPaginator._on_next event (h, env) = (Return tt, (h, env)).
Proof.
  split; [split; reflexivity|].
  apply (forward_step_pulls_at_most_one (reaction u1 100 RIGHT_TRIANGLE)
           (press RIGHT_TRIANGLE (press RIGHT_TRIANGLE started.2)).1
           (press RIGHT_TRIANGLE (press RIGHT_TRIANGLE started.2)).2); reflexivity.
Defined.

Lemma callback_refreshes_the_clock_only_when_it_returns_witness :
  let event := reaction u1 100 RIGHT_TRIANGLE in
  let h := started.2.1 in
  let env := mkEnv 5 [Some NotFoundError] 101 (messages started.2.2) [] [] [] in
  (ReactionHandler.expired h env = false /\
   _message h = Some (mkMessage 100 7) /\
   (_authors h = ∅ \/ user_id event ∈ _authors h) /\
   emoji_identifier_of event = Some (inr RIGHT_TRIANGLE) /\
   _callbacks h !! inr RIGHT_TRIANGLE = Some method__on_next) /\
  ((on_reaction_event event (h, env)).1 = Raise HandlerClosed
   /\ _last_triggered (handler_after (on_reaction_event event (h, env))) = _last_triggered h).
Proof.
  assert (Hauthor : _authors started.2.1 = ∅
                    \/ user_id (reaction u1 100 RIGHT_TRIANGLE) ∈ _authors started.2.1).
  { right. vm_compute. set_solver. }
  split; [repeat split; try reflexivity; exact Hauthor|].
  exact (callback_refreshes_the_clock_only_when_it_returns (reaction u1 100 RIGHT_TRIANGLE)
           started.2.1 (mkEnv 5 [Some NotFoundError] 101 (messages started.2.2) [] [] [])
           (mkMessage 100 7) (inr RIGHT_TRIANGLE) method__on_next
           eq_refl eq_refl Hauthor eq_refl eq_refl).
Defined.

Lemma expired_handler_stays_expired_witness :
  let event := reaction u1 100 RIGHT_TRIANGLE in
  (ReactionHandler.expired stale later = true /\ (now later <= now (quiet 40000000))%Z) /\
  (handler_after (on_reaction_event event (stale, later)) = stale
   /\ invoked (env_after (on_reaction_event event (stale, later))) = invoked later
   /\ ReactionHandler.expired (handler_after (on_reaction_event event (stale, later)))
        (quiet 40000000) = true).
Proof.
  assert (Hlater : (now later <= now (quiet 40000000))%Z) by (vm_compute; discriminate).
  split; [split; [reflexivity | exact Hlater]|].
  exact (expired_handler_stays_expired (reaction u1 100 RIGHT_TRIANGLE) stale later
           (quiet 40000000) eq_refl Hlater).
Defined.

Lemma stop_evicts_the_handler_witness :
  let event := reaction u1 100 STOP_SQUARE in
  let env := showing 100 "a" (quiet 5) in
  ((user_id event ∉ blacklist registry) /\
   _listeners registry !! message_id event = Some stale /\
   ReactionHandler.expired stale env = false /\
   _message stale = Some (mkMessage 100 7) /\
   (_authors stale = ∅ \/ user_id event ∈ _authors stale) /\
   emoji_identifier_of event = Some (inr STOP_SQUARE) /\
   _callbacks stale !! inr STOP_SQUARE = Some method__on_disable) /\
  ReactionClient._on_reaction_event event (registry, env)
  = (Return tt,
     (set__listeners (delete (message_id event) (_listeners registry)) registry,
      set_tasks (tasks env ++ [_delete_message_task (mkMessage 100 7)])
        (set_invoked (invoked env ++ [(inr STOP_SQUARE, event)]) env))).
Proof.
  assert (Hallowed : user_id (reaction u1 100 STOP_SQUARE) ∉ blacklist registry)
    by (vm_compute; set_solver).
  assert (Hauthor : _authors stale = ∅ \/ user_id (reaction u1 100 STOP_SQUARE) ∈ _authors stale).
  { right. vm_compute. set_solver. }
  split; [repeat split; try reflexivity; assumption|].
  exact (stop_evicts_the_handler (reaction u1 100 STOP_SQUARE) registry
           (showing 100 "a" (quiet 5)) stale (mkMessage 100 7) (inr STOP_SQUARE)
           Hallowed eq_refl eq_refl eq_refl Hauthor eq_refl eq_refl).
Defined.

Lemma open_attaches_every_trigger_witness :
  let h := paginator_over [page "a"] all_triggers in
  let env := showing 100 "hello" (quiet 0) in
  rest_script env = [] /\
  ReactionPaginator.open (mkMessage 100 7) true 5 2000 (h, env)
  = (Return tt,
     (set__message (Some (mkMessage 100 7)) h,
      set_messages (alter (with_reactions (_triggers h)) 100%Z (messages env)) env)).
Proof.
  split; [reflexivity|].
  exact (open_attaches_every_trigger (mkMessage 100 7) true 5 2000
           (paginator_over [page "a"] all_triggers) (showing 100 "hello" (quiet 0)) eq_refl).
Defined.


Lemma create_message_in_a_quiet_world_witness :
  let h := paginator_over [page "a"; page "b"] ReactionPaginator.default_triggers in
  (_message h = None /\ _buffer h = [] /\ _index h = 0%Z
   /\ _iterator h = (Defined "a", UNDEFINED) :: [page "b"] /\ rest_script (quiet 0) = []) /\
  ReactionPaginator.create_message 7 true 5 2000 (h, quiet 0)
  = (Return (mkMessage 100 7),
     (set__message (Some (mkMessage 100 7))
        (set__buffer [(Defined "a", UNDEFINED)] (set__index 1 (set__iterator [page "b"] h))),
      set_next_message_id (100 + 1)
        (set_messages
           (<[100%Z := with_reactions (_triggers h) (new_shown (Defined "a") UNDEFINED)]>
              (messages (quiet 0))) (quiet 0)))).
Proof.
  split; [repeat split|].
  exact (create_message_in_a_quiet_world 7 true 5 2000
           (paginator_over [page "a"; page "b"] ReactionPaginator.default_triggers) (quiet 0)
           (Defined "a") UNDEFINED [page "b"] eq_refl eq_refl eq_refl eq_refl eq_refl).
Defined.

Lemma create_message_makes_a_last_attempt_after_the_schedule_witness :
  let h := paginator_over [page "a"; page "b"] ReactionPaginator.default_triggers in
  let env := mkEnv 0 (replicate 7 (Some InternalServerError)) 100 ∅ [] [] [] in
  let rounds := Backoff (Some (5 - 1)%Z) env in
  let run := ReactionPaginator.create_message 7 true 5 2000 (h, env) in
  (_message h = None /\ _buffer h = [] /\ _index h = 0%Z
   /\ _iterator h = (Defined "a", UNDEFINED) :: [page "b"]
   /\ rest_script env = replicate 7 (Some InternalServerError)) /\
  (run.1 = Raise (Hikari InternalServerError)
   /\ _message (handler_after run) = None
   /\ messages (env_after run) = messages env
   /\ rest_script (env_after run) = replicate (7 - (rounds + 1)) (Some InternalServerError)).
Proof.
  split; [repeat split|].
  exact (create_message_makes_a_last_attempt_after_the_schedule 7 true 5 2000
           (paginator_over [page "a"; page "b"] ReactionPaginator.default_triggers)
           (mkEnv 0 (replicate 7 (Some InternalServerError)) 100 ∅ [] [] [])
           (Defined "a") UNDEFINED [page "b"] 7
           eq_refl eq_refl eq_refl eq_refl eq_refl).
Defined.

Lemma create_message_gives_up_on_a_long_rate_limit_witness :
  let h := paginator_over [page "a"; page "b"] ReactionPaginator.default_triggers in
  let env := mkEnv 0 [Some (RateLimitedError 3000)] 100 ∅ [] [] [] in
  (_message h = None /\ _buffer h = [] /\ _index h = 0%Z
   /\ _iterator h = (Defined "a", UNDEFINED) :: [page "b"]
   /\ rest_script env = Some (RateLimitedError 3000) :: [] /\ (2000 < 3000)%Z) /\
  ReactionPaginator.create_message 7 true 5 2000 (h, env)
  = (Raise (Hikari (RateLimitedError 3000)),
     (set__buffer [(Defined "a", UNDEFINED)] (set__index 1 (set__iterator [page "b"] h)),
      set_rest_script [] env)).
Proof.
  assert (Hlong : (2000 < 3000)%Z) by lia.
  split; [repeat split; try reflexivity; exact Hlong|].
  exact (create_message_gives_up_on_a_long_rate_limit 7 true 5 2000
           (paginator_over [page "a"; page "b"] ReactionPaginator.default_triggers)
           (mkEnv 0 [Some (RateLimitedError 3000)] 100 ∅ [] [] [])
           (Defined "a") UNDEFINED [page "b"] 3000 []
           eq_refl eq_refl eq_refl eq_refl eq_refl Hlong).
Defined.

Lemma registry_round_trip_witness :
  let c := mkReactionClient [] ∅ in
  let added := (ReactionClient.add_handler 100 stale (c, quiet 0)).2 in
  _listeners c !! 100%Z = None /\
  ReactionClient.get_handler 100 added = (Return (Some stale), added) /\
  (ReactionClient.remove_handler 100 added).2 = (c, quiet 0).
Proof.
  destruct (registry_round_trip 100 stale (mkReactionClient [] ∅) (quiet 0))
    as (Hget & _ & _ & Hback).
  split; [reflexivity|]. split; [exact Hget | exact (Hback eq_refl)].
Defined.

Lemma registry_ignores_strangers_witness :
  let event := reaction u1 101 RIGHT_TRIANGLE in
  (user_id event ∈ blacklist registry \/ _listeners registry !! message_id event = None) /\
  ReactionClient._on_reaction_event event (registry, quiet 0) = (Return tt, (registry, quiet 0)).
Proof.
  assert (Hstranger : user_id (reaction u1 101 RIGHT_TRIANGLE) ∈ blacklist registry
                      \/ _listeners registry !! message_id (reaction u1 101 RIGHT_TRIANGLE) = None)
    by (right; reflexivity).
  split; [exact Hstranger|].
  exact (registry_ignores_strangers (reaction u1 101 RIGHT_TRIANGLE) registry (quiet 0) Hstranger).
Defined.

Lemma gc_sweep_removes_the_expired_witness :
  let run := _gc_sweep [(100%Z, stale)] (registry, later) in
  [(100%Z, stale)] ≡ₚ map_to_list (_listeners registry) /\
  run.1 = Return tt /\ _listeners run.2.1 !! 100%Z = None.
Proof.
  assert (Hsnapshot : [(100%Z, stale)] ≡ₚ map_to_list (_listeners registry)).
  { unfold registry. cbn [_listeners]. now rewrite map_to_list_singleton. }
  destruct (gc_sweep_removes_the_expired [(100%Z, stale)] registry later Hsnapshot)
    as (Hrun & _ & _ & Hlisteners).
  split; [exact Hsnapshot|]. split; [exact Hrun|].
  rewrite Hlisteners. reflexivity.
Defined.

Lemma paginator_has_the_callbacks_of_its_triggers_witness :
  ReactionPaginator.__init__ slots_as_declared [page "a"] [u1] [RIGHT_TRIANGLE] thirty_seconds
    (quiet 0)
  = (Raise (AttributeError "_authors"), quiet 0)
  /\ exists h,
    ReactionPaginator.__init__ with___dict__ [page "a"] [u1] [RIGHT_TRIANGLE] thirty_seconds
      (quiet 0)
    = (Return h, quiet 0)
    /\ (inl 5%Z ∉ [inr LEFT_DOUBLE_TRIANGLE; inr LEFT_TRIANGLE; inr STOP_SQUARE;
                   inr RIGHT_TRIANGLE; @inr Z string RIGHT_DOUBLE_TRIANGLE])
    /\ _callbacks h !! inl 5%Z = None
    /\ _callbacks h !! inr RIGHT_TRIANGLE = Some method__on_next
    /\ _callbacks h !! inr STOP_SQUARE = None.
Proof.
  assert (Hother : inl 5%Z ∉ [inr LEFT_DOUBLE_TRIANGLE; inr LEFT_TRIANGLE; inr STOP_SQUARE;
                              inr RIGHT_TRIANGLE; @inr Z string RIGHT_DOUBLE_TRIANGLE]).
  { intros Hin. repeat (apply elem_of_cons in Hin as [Hin|Hin]; [discriminate Hin|]).
    now apply elem_of_nil in Hin. }
  destruct (paginator_has_the_callbacks_of_its_triggers [page "a"] [u1] [RIGHT_TRIANGLE]
              thirty_seconds (quiet 0))
    as (Hslots & h & Hrun & (_ & _ & Hstop & Hnext & _) & Hrest & _).
  split; [exact Hslots|].
  exists h. split; [exact Hrun|]. split; [exact Hother|]. split; [exact (Hrest _ Hother)|].
  split; [exact Hnext | exact Hstop].
Defined.

Lemma gateway_event_reaches_the_callback_witness :
  let i := mkInteraction 1 100 "press" in
  (_executors component_client !! interaction_message_id i = Some executor /\
   _id_to_callback executor !! custom_id i = Some (mkCallback "on_press")) /\
  ComponentClient.on_gateway_event (component_interaction i) (component_client, quiet 0)
  = (Return tt,
     (component_client,
      set_tasks (tasks (quiet 0)
                 ++ [listener_task (mkCallback "on_press") (Context.__init__ false i None)])
        (quiet 0))).
Proof.
  split; [split; reflexivity|].
  exact (gateway_event_reaches_the_callback (mkInteraction 1 100 "press") component_client
           (quiet 0) executor (mkCallback "on_press") eq_refl eq_refl).
Defined.

Lemma gateway_event_for_nobody_is_ignored_witness :
  let i := mkInteraction 1 101 "press" in
  _executors component_client !! interaction_message_id i = None /\
  ComponentClient.on_gateway_event (component_interaction i) (component_client, quiet 0)
  = (Return tt, (component_client, quiet 0)).
Proof.
  split; [reflexivity|].
  exact (gateway_event_for_nobody_is_ignored
           (component_interaction (mkInteraction 1 101 "press")) component_client (quiet 0)
           eq_refl).
Defined.

Lemma executor_calls_the_last_registration_witness :
  let i := mkInteraction 1 100 "press" in
  let registered :=
    (ComponentExecutor.add_callback "press" (mkCallback "second")
       (ComponentExecutor.add_callback "press" (mkCallback "first") (executor, quiet 0)).2).2 in
  custom_id i = "press" /\
  ComponentExecutor.execute i None registered
  = (Return tt,
     (registered.1,
      set_tasks (tasks (quiet 0)
                 ++ [listener_task (mkCallback "second") (Context.__init__ false i None)])
        (quiet 0))).
Proof.
  split; [reflexivity|].
  exact (executor_calls_the_last_registration "press" (mkCallback "first") (mkCallback "second")
           (mkInteraction 1 100 "press") None executor (quiet 0) eq_refl).
Defined.

Lemma future_takes_the_response_without_a_request_witness :
  let ctx := Context.__init__ false (mkInteraction 1 100 "press") (Some Pending) in
  let env := mkEnv 0 [Some NotFoundError] 100 ∅ [] [] [] in
  let a := mkArgs (Defined "hi") (Defined (mkComponent "one")) UNDEFINED
             UNDEFINED UNDEFINED UNDEFINED UNDEFINED UNDEFINED UNDEFINED UNDEFINED in
  (_has_responded ctx = false /\ _has_been_deferred ctx = false
   /\ _response_future ctx = Some Pending
   /\ (arg_component a = UNDEFINED \/ arg_components a = UNDEFINED
       \/ arg_components a = Defined [])
   /\ (arg_embed a = UNDEFINED \/ arg_embeds a = UNDEFINED \/ arg_embeds a = Defined [])) /\
  Context.defer DEFERRED_MESSAGE_CREATE UNDEFINED (ctx, env)
  = (Return tt,
     (set__response_future
        (Some (Resolved (InteractionDeferredBuilder DEFERRED_MESSAGE_CREATE
                           (Context._get_flags ctx UNDEFINED))))
        (set__has_been_deferred true ctx),
      env)) /\
  Context.create_initial_response a (ctx, env)
  = (Return tt,
     (set__response_future
        (Some (Resolved
                 (InteractionMessageBuilder MESSAGE_CREATE (Defined "hi")
                    (Defined [mkComponent "one"]) UNDEFINED MessageFlag_NONE UNDEFINED
                    UNDEFINED UNDEFINED UNDEFINED)))
        (set__has_responded true ctx),
      env)).
Proof.
  assert (Hcomponent :
            arg_component (mkArgs (Defined "hi") (Defined (mkComponent "one")) UNDEFINED
                             UNDEFINED UNDEFINED UNDEFINED UNDEFINED UNDEFINED UNDEFINED
                             UNDEFINED) = UNDEFINED
            \/ @UNDEFINED (list ComponentBuilder) = UNDEFINED
            \/ @UNDEFINED (list ComponentBuilder) = Defined [])
    by (right; left; reflexivity).
  assert (Hembed : @UNDEFINED Embed = UNDEFINED
                   \/ @UNDEFINED (list Embed) = UNDEFINED
                   \/ @UNDEFINED (list Embed) = Defined [])
    by (left; reflexivity).
  destruct (future_takes_the_response_without_a_request
              (Context.__init__ false (mkInteraction 1 100 "press") (Some Pending))
              (mkEnv 0 [Some NotFoundError] 100 ∅ [] [] [])
              DEFERRED_MESSAGE_CREATE UNDEFINED
              (mkArgs (Defined "hi") (Defined (mkComponent "one")) UNDEFINED
                 UNDEFINED UNDEFINED UNDEFINED UNDEFINED UNDEFINED UNDEFINED UNDEFINED)
              eq_refl eq_refl eq_refl)
    as [Hdefer Hcreate].
  split; [repeat split; [exact Hcomponent | exact Hembed]|].
  split; [exact Hdefer | exact (Hcreate Hcomponent Hembed)].
Defined.


Lemma action_row_holds_one_type_witness :
  let once := ActionRowExecutioner._assert_can_add_type BUTTON
                (ActionRowExecutioner.__init__, quiet 0) in
  let twice := ActionRowExecutioner._assert_can_add_type SELECT_MENU once.2 in
  once.1 = Return tt /\
  _stored_type once.2.1 = Some BUTTON /\
  twice.1 = Raise (ValueError
                     (ActionRowExecutioner.type_name SELECT_MENU
                      ++ " component type cannot be added to a container which already holds "
                      ++ ActionRowExecutioner.type_name SELECT_MENU)) /\
  twice.2 = once.2.
Proof.
  split; [reflexivity|].
  exact (action_row_holds_one_type BUTTON SELECT_MENU ActionRowExecutioner.__init__ (quiet 0)
           eq_refl).
Defined.


Lemma respond_then_respond_is_a_followup_witness :
  let initial_message := fun _ : ComponentInteraction => mkMessage 900 7 in
  let ctx := Context.__init__ false (mkInteraction 1 100 "press") None in
  let first := Responses.respond initial_message hi false (ctx, quiet 0) in
  let second := Responses.respond initial_message hi false first.2 in
  (rest_script (quiet 0) = [] /\ first.1 = Return None) /\
  (_has_responded first.2.1 = true
   /\ second.1 = Return (Some (mkMessage (next_message_id first.2.2) 7))
   /\ _last_response_id second.2.1 = Some (next_message_id first.2.2)
   /\ initial_responses second.2.2 = initial_responses first.2.2).
Proof.
  split; [split; reflexivity|].
  exact (respond_then_respond_is_a_followup (fun _ => mkMessage 900 7) hi hi false false
           (Context.__init__ false (mkInteraction 1 100 "press") None) (quiet 0) None
           eq_refl eq_refl).
Defined.

Lemma no_last_response_before_any_response_witness :
  let initial_message := fun _ : ComponentInteraction => mkMessage 900 7 in
  let ctx := Context.__init__ false (mkInteraction 1 100 "press") None in
  let a := mkMessageArgs hi UNDEFINED UNDEFINED false in
  (_last_response_id ctx = None /\ _has_responded ctx = false) /\
  (Responses.delete_last_response (ctx, quiet 0)
   = (Raise (LookupError "Context has no last response"), (ctx, quiet 0))
   /\ Responses.edit_last_response initial_message a (ctx, quiet 0)
      = (Raise (LookupError "Context has no previous responses"), (ctx, quiet 0))
   /\ Responses.fetch_last_response initial_message (ctx, quiet 0)
      = (Raise (LookupError "Context has no previous known responses"), (ctx, quiet 0))).
Proof.
  split; [split; reflexivity|].
  exact (no_last_response_before_any_response (fun _ => mkMessage 900 7)
           (mkMessageArgs hi UNDEFINED UNDEFINED false)
           (Context.__init__ false (mkInteraction 1 100 "press") None) (quiet 0)
           eq_refl eq_refl).
Defined.

Lemma followup_becomes_the_last_response_witness :
  let initial_message := fun _ : ComponentInteraction => mkMessage 900 7 in
  let ctx := Context.__init__ false (mkInteraction 1 100 "press") None in
  let a := mkMessageArgs hi UNDEFINED UNDEFINED false in
  let created := Responses.create_followup initial_message a (ctx, quiet 0) in
  rest_script (quiet 0) = [] /\
  created.1 = Return (mkMessage 100 7) /\
  _last_response_id created.2.1 = Some 100%Z /\
  Responses.fetch_last_response initial_message created.2 = (Return (mkMessage 100 7), created.2).
Proof.
  destruct (followup_becomes_the_last_response (fun _ => mkMessage 900 7)
              (mkMessageArgs hi UNDEFINED UNDEFINED false)
              (Context.__init__ false (mkInteraction 1 100 "press") None) (quiet 0) eq_refl)
    as (Hcreated & Hlast & Hfetch & _).
  split; [reflexivity|]. split; [exact Hcreated|]. split; [exact Hlast | exact Hfetch].
Defined.
